(** * NASA POWER weather data fetcher: a shallow embedding of
    [nasa_power_data_fetcher.py] and the properties of its
    fetch-and-normalize pipeline.

    Python objects are values of [pyval]; a mapping is an association list in
    insertion order, keyed by strings (JSON objects always are; a YAML
    configuration with keys that are not strings is outside the model).  A
    string is a sequence of characters with code points below 256.  A raised
    exception is a [Raise] result; the effects of the pipeline (pacing
    sleeps, HTTP requests, log records, files written) are the events of a
    trace. *)

From Stdlib Require Import ZArith List String Ascii Bool Lia.
From Stdlib Require Import Permutation Sorted Orders Mergesort.
From Stdlib Require Import DecimalString PrimFloat.
Import ListNotations.

Set Warnings "-register-all".

Open Scope string_scope.
Open Scope list_scope.
Open Scope Z_scope.

Notation "a +++ b" := (String.append a b) (at level 60, right associativity).

(* ------------------------------------------------------------------ *)
(** ** Python values, exceptions and results *)

Inductive pyval : Type :=
| PNone
| PBool (b : bool)
| PInt (z : Z)
| PFloat (f : float)
| PStr (s : string)
| PList (l : list pyval)
| PDict (d : list (string * pyval)).

Definition pydict := list (string * pyval).

Inductive exn : Type :=
| KeyError | IndexError | TypeError | AttributeError | ValueError | OSError.

Inductive result (A : Type) : Type :=
| Ok (a : A)
| Raise (e : exn).
Arguments Ok {A} a.
Arguments Raise {A} e.

Definition bindR {A B} (r : result A) (f : A -> result B) : result B :=
  match r with
  | Ok a => f a
  | Raise e => Raise e
  end.

Notation "'let*' x ':=' r 'in' k" := (bindR r (fun x => k))
  (at level 10, x name, r at level 100, k at level 200).

Definition is_ok {A} (r : result A) : bool :=
  match r with Ok _ => true | Raise _ => false end.

Fixpoint mapR {A B} (f : A -> result B) (l : list A) : result (list B) :=
  match l with
  | [] => Ok []
  | x :: xs =>
      let* y := f x in
      let* ys := mapR f xs in
      Ok (y :: ys)
  end.

(* ------------------------------------------------------------------ *)
(** ** Mappings *)

Fixpoint dict_get {V} (k : string) (d : list (string * V)) : option V :=
  match d with
  | [] => None
  | (k', v) :: rest => if String.eqb k k' then Some v else dict_get k rest
  end.

Definition dict_keys {V} (d : list (string * V)) : list string := map fst d.

Definition dict_mem {V} (k : string) (d : list (string * V)) : bool :=
  match dict_get k d with Some _ => true | None => false end.

(* ------------------------------------------------------------------ *)
(** ** The operations of Python the program uses *)

(** [s[a:b]] for [0 <= a <= b]. *)
Definition slice (a b : nat) (s : string) : string := substring a (b - a) s.

Fixpoint chars (s : string) : list string :=
  match s with
  | EmptyString => []
  | String c rest => String c EmptyString :: chars rest
  end.

(** [sub in s] on strings. *)
Fixpoint substr_in (sub s : string) : bool :=
  prefix sub s
  || match s with
     | EmptyString => false
     | String _ rest => substr_in sub rest
     end.

(** Indexing a sequence: a negative index counts from the end. *)
Definition seq_index {A} (l : list A) (i : Z) : result A :=
  let n := Z.of_nat (List.length l) in
  let j := if i <? 0 then i + n else i in
  if (j <? 0) || (n <=? j) then Raise IndexError
  else match nth_error l (Z.to_nat j) with
       | Some x => Ok x
       | None => Raise IndexError
       end.

(** [o[k]]. *)
Definition py_getitem (o k : pyval) : result pyval :=
  match o with
  | PDict d =>
      match k with
      | PStr s => match dict_get s d with
                  | Some v => Ok v
                  | None => Raise KeyError
                  end
      | PList _ | PDict _ => Raise TypeError
      | _ => Raise KeyError
      end
  | PList l =>
      match k with
      | PInt i => seq_index l i
      | PBool b => seq_index l (Z.b2z b)
      | _ => Raise TypeError
      end
  | PStr s =>
      match k with
      | PInt i => let* c := seq_index (chars s) i in Ok (PStr c)
      | PBool b => let* c := seq_index (chars s) (Z.b2z b) in Ok (PStr c)
      | _ => Raise TypeError
      end
  | _ => Raise TypeError
  end.

Notation "o .[ k ]" := (py_getitem o (PStr k)) (at level 1, format "o .[ k ]").

(** [k in o] for a string [k]. *)
Definition py_contains (k : string) (o : pyval) : result bool :=
  match o with
  | PDict d => Ok (dict_mem k d)
  | PList l =>
      Ok (existsb (fun x => match x with
                            | PStr s => String.eqb k s
                            | _ => false
                            end) l)
  | PStr s => Ok (substr_in k s)
  | _ => Raise TypeError
  end.

(** [for x in o]. *)
Definition py_iter (o : pyval) : result (list pyval) :=
  match o with
  | PList l => Ok l
  | PDict d => Ok (map PStr (dict_keys d))
  | PStr s => Ok (map PStr (chars s))
  | _ => Raise TypeError
  end.

(** [len(o)]. *)
Definition py_len (o : pyval) : result Z :=
  match o with
  | PList l => Ok (Z.of_nat (List.length l))
  | PDict d => Ok (Z.of_nat (List.length d))
  | PStr s => Ok (Z.of_nat (String.length s))
  | _ => Raise TypeError
  end.

(** [list(o.keys())]. *)
Definition py_keys (o : pyval) : result (list string) :=
  match o with
  | PDict d => Ok (dict_keys d)
  | _ => Raise AttributeError
  end.

(** [o.get(k, default)]. *)
Definition py_get (o : pyval) (k : string) (default : pyval) : result pyval :=
  match o with
  | PDict d => Ok (match dict_get k d with Some v => v | None => default end)
  | _ => Raise AttributeError
  end.

(** [sep.join(o)]: every item must be a string. *)
Definition py_join (sep : string) (o : pyval) : result string :=
  let* items := py_iter o in
  let* strs := mapR (fun x => match x with
                              | PStr s => Ok s
                              | _ => Raise TypeError
                              end) items in
  Ok (String.concat sep strs).

(** [str(z)] for an integer. *)
Definition str_of_Z (z : Z) : string := NilZero.string_of_int (Z.to_int z).

(** [value == -999]: an integer or a float is compared by value; a boolean
    is 0 or 1; anything else is unequal to a number. *)
Definition is_sentinel (value : pyval) : bool :=
  match value with
  | PInt z => z =? -999
  | PFloat f => PrimFloat.eqb f (-999)%float
  | _ => false
  end.

(** *** [int(s)] on a string, base 10 *)

Definition is_space (c : ascii) : bool :=
  let n := nat_of_ascii c in
  existsb (Nat.eqb n) [9; 10; 11; 12; 13; 28; 29; 30; 31; 32; 133; 160]%nat.

Fixpoint lstrip (l : list ascii) : list ascii :=
  match l with
  | c :: rest => if is_space c then lstrip rest else l
  | [] => []
  end.

Definition strip (l : list ascii) : list ascii := rev (lstrip (rev (lstrip l))).

Definition digit_of (c : ascii) : option Z :=
  let n := nat_of_ascii c in
  if (48 <=? n)%nat && (n <=? 57)%nat then Some (Z.of_nat (n - 48)) else None.

(** Digits, with single underscores allowed between two digits. *)
Fixpoint digits_value (l : list ascii) (acc : Z) (after_digit : bool) : option Z :=
  match l with
  | [] => if after_digit then Some acc else None
  | c :: rest =>
      match digit_of c with
      | Some d => digits_value rest (10 * acc + d) true
      | None =>
          if Ascii.eqb c "_"%char && after_digit
          then digits_value rest acc false
          else None
      end
  end.

Definition py_int (s : string) : result Z :=
  let body := strip (list_ascii_of_string s) in
  let signed :=
    match body with
    | c :: rest =>
        if Ascii.eqb c "-"%char then option_map Z.opp (digits_value rest 0 false)
        else if Ascii.eqb c "+"%char then digits_value rest 0 false
        else digits_value body 0 false
    | [] => None
    end in
  match signed with
  | Some z => Ok z
  | None => Raise ValueError
  end.

(* ------------------------------------------------------------------ *)
(** ** Rows and data frames *)

(** The row dictionary of [_process_site_data].  [D] is the type of the
    [date] cell: the string [YYYYMMDD] in [all_data], a timestamp once the
    frame's column has gone through [pd.to_datetime].  [weather] holds the
    ten cells the loop over [param_mapping] adds, in that order. *)
Record row (D : Type) : Type := mkRow {
  site_code : string;
  points : pyval;
  latitude : pyval;
  longitude : pyval;
  date : D;
  year : Z;
  month : Z;
  day : Z;
  weather : list (string * pyval)
}.
Arguments mkRow {D}.
Arguments site_code {D}.
Arguments points {D}.
Arguments latitude {D}.
Arguments longitude {D}.
Arguments date {D}.
Arguments year {D}.
Arguments month {D}.
Arguments day {D}.
Arguments weather {D}.

(** A timestamp is a point on the time line, as an integer. *)
Definition timestamp := Z.

(** A frame is the list of its rows, each cell the Python value the row
    dictionary holds.  The dtype pandas gives a column (a null stored as
    NaN, an integer stored as a float beside floats, also across the frames
    [pd.concat] joins) is not modelled: of a frame's cells, only what holds
    of the row dictionaries is stated. *)
Definition DataFrame := list (row timestamp).

(** The value of column [col] in a row: [None] when the row has no such
    column, [Some PNone] for a null cell. *)
Definition field {D} (r : row D) (col : string) : option pyval :=
  dict_get col (weather r).

Definition date_le (r1 r2 : row timestamp) : Prop := date r1 <= date r2.

Definition site_date_le (r1 r2 : row timestamp) : Prop :=
  String.ltb (site_code r1) (site_code r2) = true
  \/ (site_code r1 = site_code r2 /\ date r1 <= date r2).

Definition with_date {D E} (r : row D) (d : E) : row E :=
  mkRow (site_code r) (points r) (latitude r) (longitude r) d
        (year r) (month r) (day r) (weather r).

(* ------------------------------------------------------------------ *)
(** ** Library functions the program calls *)

(** Python builtins whose result the program only passes on: [repr] of a
    float or a container (reached through [str] and f-strings), [min] and
    [max] of the configured years. *)
Class Builtins : Type := {
  py_repr : pyval -> string;
  py_min : list pyval -> result pyval;
  py_max : list pyval -> result pyval
}.

(** pandas: [pd.to_datetime(_, format='%Y%m%d')] on one cell ([None] when it
    raises), and [sort_values] by [['date']] and by [['site_code', 'date']].
    A sort returns its rows rearranged into ascending order of the key; how
    it orders rows of equal key is left open. *)
Class Pandas : Type := {
  to_datetime : string -> option timestamp;
  sort_by_date : DataFrame -> DataFrame;
  sort_by_site_date : DataFrame -> DataFrame;
  sort_by_date_perm : forall df, Permutation df (sort_by_date df);
  sort_by_date_sorted : forall df, Sorted date_le (sort_by_date df);
  sort_by_site_date_perm : forall df, Permutation df (sort_by_site_date df);
  sort_by_site_date_sorted : forall df, Sorted site_date_le (sort_by_site_date df)
}.

(** [str(v)], also what an f-string inserts for [{v}]. *)
Definition py_str `{Builtins} (v : pyval) : string :=
  match v with
  | PNone => "None"
  | PBool true => "True"
  | PBool false => "False"
  | PInt z => str_of_Z z
  | PStr s => s
  | _ => py_repr v
  end.

(** [os.path.join(a, b)] on POSIX. *)
Definition ends_with_slash (s : string) : bool :=
  match rev (list_ascii_of_string s) with
  | c :: _ => Ascii.eqb c "/"%char
  | [] => false
  end.

Definition os_path_join (a : pyval) (b : string) : result string :=
  match a with
  | PStr dir =>
      if prefix "/" b then Ok b
      else if String.eqb dir "" || ends_with_slash dir then Ok (dir +++ b)
      else Ok (dir +++ "/" +++ b)
  | _ => Raise TypeError
  end.

(* ------------------------------------------------------------------ *)
(** ** Effects: events, programs and their runs *)

Inductive level : Type := INFO | WARNING | ERROR.

(** The log records of the program, by the statement that emits them. *)
Inductive logmsg : Type :=
| LoadedConfiguration
| ConfigurationFailure
| Fetching (site : string) (year lat long : pyval)
| InvalidResponseStructure (site : string) (year : pyval)
| FetchedSuccessfully (site : string) (year : pyval)
| ErrorFetching (site : string) (year : pyval)
| ErrorParsing (site : string) (year : pyval)
| Skipping (site : string) (year : pyval)
| NoDataCollected (site : string)
| Processed (n : nat) (site : string)
| StartingCollection
| ProcessingSite (site : pyval)
| NoDataToSave (site : pyval)
| Saved (n : nat) (path : string)
| CollectionComplete
| CreatingCombined
| SavedCombined (n : nat) (path : string)
| NoDataForCombined
| Summary (line : string)
| SummarySite (site lat long : pyval)
| AllCompleted
| UnexpectedError (e : exn)
| Traceback.

Inductive event : Type :=
| ESleep (seconds : Z)
| EGet (url : string) (timeout : Z)
| ELog (lvl : level) (msg : logmsg)
| EMakedirs (path : string)
| EWriteCsv (path : string) (df : DataFrame).

(** What [session.get], [raise_for_status] and [response.json] leave of a
    request: a transport failure or a non-success status (both a
    [RequestException]), a body that is not JSON, or the decoded body. *)
Inductive http_response : Type :=
| TransportFailure
| BadStatus
| NotJson
| Body (data : pyval).

Definition API := string -> http_response.

Inductive prog (A : Type) : Type :=
| Ret (a : A)
| Throw (e : exn)
| Emit (ev : event) (k : prog A)
| HttpGet (url : string) (timeout : Z) (k : http_response -> prog A).
Arguments Ret {A} a.
Arguments Throw {A} e.
Arguments Emit {A} ev k.
Arguments HttpGet {A} url timeout k.

Fixpoint bind {A B} (p : prog A) (f : A -> prog B) : prog B :=
  match p with
  | Ret a => f a
  | Throw e => Throw e
  | Emit ev k => Emit ev (bind k f)
  | HttpGet url t k => HttpGet url t (fun r => bind (k r) f)
  end.

Definition lift {A} (r : result A) : prog A :=
  match r with
  | Ok a => Ret a
  | Raise e => Throw e
  end.

Definition emit (ev : event) : prog unit := Emit ev (Ret tt).
Definition log (lvl : level) (msg : logmsg) : prog unit := emit (ELog lvl msg).

Notation "x <- p ;; k" := (bind p (fun x => k))
  (at level 61, p at next level, right associativity).
Notation "p ;; k" := (bind p (fun _ => k))
  (at level 61, right associativity).

(** Running a program against an API: the trace of its events and its
    result. *)
Fixpoint run {A} (api : API) (p : prog A) : list event * result A :=
  match p with
  | Ret a => ([], Ok a)
  | Throw e => ([], Raise e)
  | Emit ev k => let (t, r) := run api k in (ev :: t, r)
  | HttpGet url tmo k =>
      let (t, r) := run api (k (api url)) in (EGet url tmo :: t, r)
  end.

Definition trace_of {A} (api : API) (p : prog A) : list event := fst (run api p).
Definition result_of {A} (api : API) (p : prog A) : result A := snd (run api p).

(* ------------------------------------------------------------------ *)
(** ** The fetcher *)

Definition base_url : string :=
  "https://power.larc.nasa.gov/api/temporal/daily/point".

(** [param_mapping]: NASA parameter code, output column. *)
Definition param_mapping : list (string * string) :=
  [ ("T2M", "air_temp_c");
    ("T2M_MAX", "air_temp_max_c");
    ("T2MDEW", "dewpoint_temp_c");
    ("ALLSKY_SFC_SW_DWN", "solar_radiation_kwh_m2");
    ("WS2M", "wind_speed_ms");
    ("WS2M_MAX", "wind_speed_max_ms");
    ("WD2M", "wind_direction_deg");
    ("WD2M_MAX", "wind_direction_max_deg");
    ("CLOUD_AMT_DAY", "cloud_cover_pct");
    ("PRECTOTCORR", "precipitation_mm") ].

(** [f"{k}={v}"] for every item, joined by [&]. *)
Definition query_string (params : list (string * string)) : string :=
  String.concat "&" (map (fun kv => fst kv +++ "=" +++ snd kv) params).

(** The condition of the structure test of [_fetch_data]:
    ['properties' not in data or 'parameter' not in data['properties']]. *)
Definition invalid_structure (data : pyval) : result bool :=
  let* has_properties := py_contains "properties" data in
  if negb has_properties then Ok true
  else
    let* properties := data.["properties"] in
    let* has_parameter := py_contains "parameter" properties in
    Ok (negb has_parameter).

(** The body of the loop over [param_mapping], for one parameter code. *)
Definition weather_cell (parameters : pyval) (date_str nasa_param : string)
  : result pyval :=
  let* present := py_contains nasa_param parameters in
  if present then
    let* series := parameters.[nasa_param] in
    let* value := py_get series date_str PNone in
    Ok (if is_sentinel value then PNone else value)
  else Ok PNone.

(** The body of the loop over [dates]: the row of one date. *)
Definition row_of_date (site : string) (site_info parameters : pyval)
    (date_str : string) : result (row string) :=
  let* pts := site_info.["POINTS"] in
  let* lat := site_info.["lat"] in
  let* long := site_info.["long"] in
  let* y := py_int (slice 0 4 date_str) in
  let* m := py_int (slice 4 6 date_str) in
  let* d := py_int (slice 6 8 date_str) in
  let* cells := mapR (fun pc =>
                        let* value := weather_cell parameters date_str (fst pc) in
                        Ok (snd pc, value)) param_mapping in
  Ok (mkRow site pts lat long date_str y m d cells).

(** The rows one response adds to [all_data]. *)
Definition rows_of_parameters (site : string) (site_info parameters : pyval)
  : result (list (row string)) :=
  let* keys := py_keys parameters in
  let* first_param := seq_index keys 0 in
  let* first_series := parameters.[first_param] in
  let* dates := py_keys first_series in
  mapR (row_of_date site site_info parameters) dates.

(** [raw_data['properties']['parameter']]. *)
Definition response_parameters (raw_data : pyval) : result pyval :=
  let* properties := raw_data.["properties"] in
  properties.["parameter"].

Definition rows_of_response (site : string) (site_info raw_data : pyval)
  : result (list (row string)) :=
  let* parameters := response_parameters raw_data in
  rows_of_parameters site site_info parameters.

Definition makedirs (path : pyval) : prog unit :=
  match path with
  | PStr s => if String.eqb s "" then Throw OSError else emit (EMakedirs s)
  | _ => Throw TypeError
  end.

(** The site code as the string it is.  Once [self.config[site_code]] and
    [self.config['years']] have both succeeded the configuration is a mapping
    and the code one of its keys, a string ([site_code_is_string] below):
    the last case is never reached. *)
Definition site_name (site_code : pyval) : result string :=
  match site_code with
  | PStr s => Ok s
  | _ => Raise TypeError
  end.

Section Fetcher.

Context {builtins : Builtins} {pandas : Pandas}.

(** [self.config], as [yaml.safe_load] returned it. *)
Variable config : pyval.

(** The [params] dictionary of [_build_api_url]. *)
Definition query_params (site_info year : pyval)
  : result (list (string * string)) :=
  let* api_settings := config.["api_settings"] in
  let* parameters := api_settings.["parameters"] in
  let* joined := py_join "," parameters in
  let* community := api_settings.["community"] in
  let* long := site_info.["long"] in
  let* lat := site_info.["lat"] in
  Ok [ ("parameters", joined);
       ("community", py_str community);
       ("longitude", py_str long);
       ("latitude", py_str lat);
       ("start", py_str year +++ "0101");
       ("end", py_str year +++ "1231");
       ("format", "json") ].

Definition _build_api_url (site_info year : pyval) : result string :=
  let* params := query_params site_info year in
  Ok (base_url +++ "?" +++ query_string params).

(** [None] is [Ret None]; the [except] clauses are the cases of the
    response.  A body that is not JSON raises requests' [JSONDecodeError],
    a [RequestException]. *)
Definition _fetch_data (site : string) (year : pyval) : prog (option pyval) :=
  site_info <- lift config.[site] ;;
  url <- lift (_build_api_url site_info year) ;;
  lat <- lift site_info.["lat"] ;;
  long <- lift site_info.["long"] ;;
  log INFO (Fetching site year lat long) ;;
  HttpGet url 30 (fun response =>
    match response with
    | TransportFailure | BadStatus | NotJson =>
        log ERROR (ErrorFetching site year) ;; Ret None
    | Body data =>
        match invalid_structure data with
        | Ok true => log ERROR (InvalidResponseStructure site year) ;; Ret None
        | Ok false => log INFO (FetchedSuccessfully site year) ;; Ret (Some data)
        | Raise _ => log ERROR (ErrorParsing site year) ;; Ret None
        end
    end).

(** The loop over [self.config['years']], with [all_data] as accumulator. *)
Fixpoint years_loop (site : string) (site_info : pyval) (years : list pyval)
    (all_data : list (row string)) : prog (list (row string)) :=
  match years with
  | [] => Ret all_data
  | year :: rest =>
      emit (ESleep 1) ;;
      raw_data <- _fetch_data site year ;;
      match raw_data with
      | None =>
          log WARNING (Skipping site year) ;;
          years_loop site site_info rest all_data
      | Some raw =>
          rows <- lift (rows_of_response site site_info raw) ;;
          years_loop site site_info rest (all_data ++ rows)
      end
  end.

(** [df['date'] = pd.to_datetime(df['date'], format='%Y%m%d')]. *)
Definition convert_dates (all_data : list (row string)) : result DataFrame :=
  mapR (fun r => match to_datetime (date r) with
                 | Some t => Ok (with_date r t)
                 | None => Raise ValueError
                 end) all_data.

Definition _process_site_data (site_code : pyval) : prog DataFrame :=
  site_info <- lift (py_getitem config site_code) ;;
  years <- lift (let* ys := config.["years"] in py_iter ys) ;;
  site <- lift (site_name site_code) ;;
  all_data <- years_loop site site_info years [] ;;
  match all_data with
  | [] => log WARNING (NoDataCollected site) ;; Ret []
  | _ :: _ =>
      df <- lift (convert_dates all_data) ;;
      let df := sort_by_date df in
      log INFO (Processed (List.length df) site) ;;
      Ret df
  end.

(** [os.path.join(output_dir, f"{name}_daily_weather_{min}-{max}.csv")]. *)
Definition output_file (name : string) : result string :=
  let* output_dir := py_get config "output_directory" (PStr "nasa_power_data") in
  let* years := config.["years"] in
  let* ys := py_iter years in
  let* lo := py_min ys in
  let* hi := py_max ys in
  os_path_join output_dir
    (name +++ "_daily_weather_" +++ py_str lo +++ "-" +++ py_str hi +++ ".csv").

Fixpoint fetch_sites (sites : list pyval) : prog unit :=
  match sites with
  | [] => Ret tt
  | site_code :: rest =>
      log INFO (ProcessingSite site_code) ;;
      site_df <- _process_site_data site_code ;;
      match site_df with
      | [] => log WARNING (NoDataToSave site_code) ;; fetch_sites rest
      | _ :: _ =>
          filepath <- lift (output_file (py_str site_code)) ;;
          emit (EWriteCsv filepath site_df) ;;
          log INFO (Saved (List.length site_df) filepath) ;;
          fetch_sites rest
      end
  end.

Definition fetch_all_data : prog unit :=
  log INFO StartingCollection ;;
  sites <- lift (let* s := config.["sites"] in py_iter s) ;;
  fetch_sites sites ;;
  log INFO CollectionComplete.

Fixpoint collect_sites (sites : list pyval) (all_sites_data : list DataFrame)
  : prog (list DataFrame) :=
  match sites with
  | [] => Ret all_sites_data
  | site_code :: rest =>
      site_df <- _process_site_data site_code ;;
      match site_df with
      | [] => collect_sites rest all_sites_data
      | _ :: _ => collect_sites rest (all_sites_data ++ [site_df])
      end
  end.

Definition create_combined_file : prog unit :=
  log INFO CreatingCombined ;;
  sites <- lift (let* s := config.["sites"] in py_iter s) ;;
  all_sites_data <- collect_sites sites [] ;;
  match all_sites_data with
  | [] => log WARNING NoDataForCombined
  | _ :: _ =>
      let combined_df := sort_by_site_date (List.concat all_sites_data) in
      filepath <- lift (output_file "all_sites") ;;
      emit (EWriteCsv filepath combined_df) ;;
      log INFO (SavedCombined (List.length combined_df) filepath)
  end.

Fixpoint summary_sites (sites : list pyval) : prog unit :=
  match sites with
  | [] => Ret tt
  | site_code :: rest =>
      site_info <- lift (py_getitem config site_code) ;;
      lat <- lift site_info.["lat"] ;;
      long <- lift site_info.["long"] ;;
      log INFO (SummarySite site_code lat long) ;;
      summary_sites rest
  end.

Definition print_config_summary : prog unit :=
  log INFO (Summary "Configuration Summary:") ;;
  sites_line <- lift (let* s := config.["sites"] in py_join ", " s) ;;
  log INFO (Summary ("  Sites: " +++ sites_line)) ;;
  years_line <- lift (let* ys := config.["years"] in
                      let* y0 := py_getitem ys (PInt 0) in
                      let* y1 := py_getitem ys (PInt (-1)) in
                      let* n := py_len ys in
                      Ok (py_str y0 +++ " to " +++ py_str y1
                          +++ " (" +++ str_of_Z n +++ " years)")) ;;
  log INFO (Summary ("  Years: " +++ years_line)) ;;
  n_params <- lift (let* api_settings := config.["api_settings"] in
                    let* parameters := api_settings.["parameters"] in
                    py_len parameters) ;;
  log INFO (Summary ("  Parameters: " +++ str_of_Z n_params +++ " weather variables")) ;;
  output_dir <- lift (py_get config "output_directory" (PStr "nasa_power_data")) ;;
  log INFO (Summary ("  Output directory: " +++ py_str output_dir)) ;;
  sites <- lift (let* s := config.["sites"] in py_iter s) ;;
  summary_sites sites.

(** [NASAPowerDataFetcher()] once the configuration is loaded. *)
Definition init : prog unit :=
  log INFO LoadedConfiguration ;;
  output_dir <- lift (py_get config "output_directory" (PStr "nasa_power_data")) ;;
  makedirs output_dir.

(** The [try] block of [main]. *)
Definition pipeline : prog unit :=
  init ;;
  print_config_summary ;;
  fetch_all_data ;;
  create_combined_file ;;
  log INFO AllCompleted.

End Fetcher.

(** [main]: the events of the run and the exit status of the process.
    [loaded] is what [yaml.safe_load] made of the configuration file, [None]
    when the file is missing or is not YAML ([sys.exit(1)] in
    [_load_config]).  An interruption by the user ([KeyboardInterrupt],
    which also exits with status 0) is outside the model: status 0 here is
    that of a run that went through. *)
Definition main `{Builtins} `{Pandas} (api : API) (loaded : option pyval)
  : list event * Z :=
  match loaded with
  | None => ([ELog ERROR ConfigurationFailure], 1)
  | Some config =>
      let (t, r) := run api (pipeline config) in
      match r with
      | Ok _ => (t, 0)
      | Raise e => (t ++ [ELog ERROR (UnexpectedError e); ELog ERROR Traceback], 1)
      end
  end.

Definition exit_status `{Builtins} `{Pandas} (api : API) (loaded : option pyval) : Z :=
  snd (main api loaded).

(** The files a trace writes, in order. *)
Fixpoint files_written (t : list event) : list (string * DataFrame) :=
  match t with
  | [] => []
  | EWriteCsv path df :: rest => (path, df) :: files_written rest
  | _ :: rest => files_written rest
  end.

Fixpoint requests_made (t : list event) : list string :=
  match t with
  | [] => []
  | EGet url _ :: rest => url :: requests_made rest
  | _ :: rest => requests_made rest
  end.

(* ------------------------------------------------------------------ *)
(** ** A reference instance of the library functions

    Used to run the program on concrete inputs.  [min] and [max] are those
    of a list of integers; [repr] is not reached when coordinates and years
    are integers or strings.  [to_datetime] reads exactly eight digits as a
    calendar date and gives its midnight in nanoseconds since 1970-01-01, if
    that fits 64 bits; the sorts are stable merge sorts. *)

Fixpoint fold_ints (f : Z -> Z -> Z) (l : list pyval) (acc : Z) : result pyval :=
  match l with
  | [] => Ok (PInt acc)
  | PInt z :: rest => fold_ints f rest (f acc z)
  | _ :: _ => Raise TypeError
  end.

Definition ints_extremum (f : Z -> Z -> Z) (l : list pyval) : result pyval :=
  match l with
  | [] => Raise ValueError
  | PInt z :: rest => fold_ints f rest z
  | _ :: _ => Raise TypeError
  end.

#[export] Instance ref_builtins : Builtins := {
  py_repr := fun _ => "<repr>";
  py_min := ints_extremum Z.min;
  py_max := ints_extremum Z.max
}.

Definition is_leap (y : Z) : bool :=
  ((y mod 4 =? 0) && negb (y mod 100 =? 0)) || (y mod 400 =? 0).

Definition days_in_month (y m : Z) : Z :=
  if m =? 2 then (if is_leap y then 29 else 28)
  else if (m =? 4) || (m =? 6) || (m =? 9) || (m =? 11) then 30
  else 31.

(** Days from 1970-01-01 to the civil date [y-m-d]. *)
Definition days_from_civil (y m d : Z) : Z :=
  let y' := if m <=? 2 then y - 1 else y in
  let era := y' / 400 in
  let yoe := y' - era * 400 in
  let mp := (m + 9) mod 12 in
  let doy := (153 * mp + 2) / 5 + d - 1 in
  let doe := yoe * 365 + yoe / 4 - yoe / 100 + doy in
  era * 146097 + doe - 719468.

Definition timestamp_of_ymd (y m d : Z) : timestamp :=
  days_from_civil y m d * 86400 * 1000000000.

Definition all_digits (s : string) : bool :=
  forallb (fun c => match digit_of c with Some _ => true | None => false end)
          (list_ascii_of_string s).

Definition ref_to_datetime (s : string) : option timestamp :=
  if (String.length s =? 8)%nat && all_digits s then
    match py_int (slice 0 4 s), py_int (slice 4 6 s), py_int (slice 6 8 s) with
    | Ok y, Ok m, Ok d =>
        let t := timestamp_of_ymd y m d in
        if (1 <=? m) && (m <=? 12) && (1 <=? d) && (d <=? days_in_month y m)
           && (- 2 ^ 63 <? t) && (t <? 2 ^ 63)
        then Some t else None
    | _, _, _ => None
    end
  else None.

Definition date_leb (r1 r2 : row timestamp) : bool := date r1 <=? date r2.

Definition site_date_leb (r1 r2 : row timestamp) : bool :=
  String.ltb (site_code r1) (site_code r2)
  || (String.eqb (site_code r1) (site_code r2) && (date r1 <=? date r2)).

Lemma date_leb_total (r1 r2 : row timestamp) :
  date_leb r1 r2 = true \/ date_leb r2 r1 = true.
Proof. unfold date_leb. rewrite !Z.leb_le. lia. Qed.

Lemma site_date_leb_total (r1 r2 : row timestamp) :
  site_date_leb r1 r2 = true \/ site_date_leb r2 r1 = true.
Proof.
  unfold site_date_leb, String.ltb.
  rewrite (String.compare_antisym (site_code r1) (site_code r2)).
  destruct (String.compare (site_code r2) (site_code r1)) eqn:E.
  - apply String.compare_eq_iff in E.
    rewrite (proj2 (String.eqb_eq _ _) E).
    rewrite (proj2 (String.eqb_eq _ _) (eq_sym E)).
    cbn [CompOpp orb andb]. rewrite !Z.leb_le. lia.
  - now right.
  - now left.
Qed.

Module DateOrder <: TotalLeBool.
Definition t := row timestamp.
Definition leb := date_leb.
Definition leb_total := date_leb_total.
End DateOrder.

Module SiteDateOrder <: TotalLeBool.
Definition t := row timestamp.
Definition leb := site_date_leb.
Definition leb_total := site_date_leb_total.
End SiteDateOrder.

Module DateSort := Sort DateOrder.
Module SiteDateSort := Sort SiteDateOrder.

Lemma Sorted_weaken {A} (R S : A -> A -> Prop) (l : list A) :
  (forall x y, R x y -> S x y) -> Sorted R l -> Sorted S l.
Proof.
  intros HRS HR. induction HR as [|a l Hl IH Hhd]; constructor; auto.
  destruct Hhd; constructor; auto.
Qed.

Lemma date_leb_le (r1 r2 : row timestamp) :
  date_leb r1 r2 = true -> date_le r1 r2.
Proof. unfold date_leb, date_le. apply Z.leb_le. Qed.

Lemma site_date_leb_le (r1 r2 : row timestamp) :
  site_date_leb r1 r2 = true -> site_date_le r1 r2.
Proof.
  unfold site_date_leb, site_date_le. intros H.
  apply orb_true_iff in H. destruct H as [H|H]; [now left|right].
  apply andb_true_iff in H. destruct H as [H1 H2].
  apply String.eqb_eq in H1. apply Z.leb_le in H2. auto.
Qed.

#[export, refine] Instance ref_pandas : Pandas := {
  to_datetime := ref_to_datetime;
  sort_by_date := DateSort.sort;
  sort_by_site_date := SiteDateSort.sort
}.
Proof.
  - apply DateSort.Permuted_sort.
  - intros df. eapply Sorted_weaken; [|apply DateSort.Sorted_sort].
    intros x y. apply date_leb_le.
  - apply SiteDateSort.Permuted_sort.
  - intros df. eapply Sorted_weaken; [|apply SiteDateSort.Sorted_sort].
    intros x y. apply site_date_leb_le.
Defined.

(* ------------------------------------------------------------------ *)
(** ** The vocabulary of the properties *)

(** A program raises on every run. *)
Definition fails {A} (api : API) (p : prog A) : Prop :=
  exists e, result_of api p = Raise e.

(** A program that writes no file, whatever the API answers. *)
Inductive quiet {A} : prog A -> Prop :=
| quiet_ret a : quiet (Ret a)
| quiet_throw e : quiet (Throw e)
| quiet_emit ev k :
    match ev with EWriteCsv _ _ => False | _ => True end ->
    quiet k -> quiet (Emit ev k)
| quiet_get url tmo k : (forall r, quiet (k r)) -> quiet (HttpGet url tmo k).

(** What makes [_fetch_data] return [None]. *)
Definition fetch_failure (response : http_response) : Prop :=
  match response with
  | TransportFailure | BadStatus | NotJson => True
  | Body data => invalid_structure data <> Ok false
  end.

(** The cell the loop over [param_mapping] computes for parameter code
    [nasa] at date [d], when every parameter of the response is a series. *)
Definition expected_cell (params : pydict) (d nasa : string) : pyval :=
  match dict_get nasa params with
  | Some (PDict series) =>
      match dict_get d series with
      | Some v => if is_sentinel v then PNone else v
      | None => PNone
      end
  | _ => PNone
  end.

(** The three slices of a date key are integers to [int]. *)
Definition date_key_ok (d : string) : bool :=
  is_ok (py_int (slice 0 4 d)) && is_ok (py_int (slice 4 6 d))
  && is_ok (py_int (slice 6 8 d)).

Definition is_series (v : pyval) : bool :=
  match v with PDict _ => true | _ => false end.

(** The site entry has the three keys a row reads. *)
Definition site_info_ok (site_info : pyval) : bool :=
  is_ok site_info.["POINTS"] && is_ok site_info.["lat"] && is_ok site_info.["long"].

Definition date_lt (r1 r2 : row timestamp) : Prop := date r1 < date r2.

(** The two cells that tell the rows of a frame apart. *)
Definition row_key (r : row timestamp) : string * timestamp :=
  (site_code r, date r).

(** Reading a query string back: [s.split(sep)], and the cut of an item at
    its first [=]. *)
Fixpoint split_on (sep : ascii) (s : string) : list string :=
  match s with
  | EmptyString => [EmptyString]
  | String c rest =>
      if Ascii.eqb c sep then EmptyString :: split_on sep rest
      else match split_on sep rest with
           | item :: items => String c item :: items
           | [] => [String c EmptyString]
           end
  end.

Fixpoint cut (sep : ascii) (s : string) : string * string :=
  match s with
  | EmptyString => (EmptyString, EmptyString)
  | String c rest =>
      if Ascii.eqb c sep then (EmptyString, rest)
      else let (k, v) := cut sep rest in (String c k, v)
  end.

(** The keys of a query string with their values, in order. *)
Definition parse_query (qs : string) : list (string * string) :=
  map (cut "=") (split_on "&" qs).

Fixpoint no_char (c : ascii) (s : string) : bool :=
  match s with
  | EmptyString => true
  | String c' rest => negb (Ascii.eqb c' c) && no_char c rest
  end.

(** An item [k=v] that can be read back: no [&] in it, no [=] in its key. *)
Definition plain_item (kv : string * string) : bool :=
  no_char "&" (fst kv) && no_char "=" (fst kv) && no_char "&" (snd kv).

(** The decimal of a four-digit year: four characters that [int] reads
    back, none of them [&]. *)
Definition year_check (y : Z) : bool :=
  (String.length (str_of_Z y) =? 4)%nat
  && match py_int (str_of_Z y) with Ok z => z =? y | Raise _ => false end
  && all_digits (str_of_Z y)
  && no_char "&" (str_of_Z y).

(** What [_fetch_data] returns for a response: the decoded body when it
    passes the structure test, [None] otherwise. *)
Definition fetch_outcome (response : http_response) : option pyval :=
  match response with
  | Body data =>
      match invalid_structure data with
      | Ok false => Some data
      | _ => None
      end
  | _ => None
  end.

(** A program that makes no request and does not sleep. *)
Inductive offline {A} : prog A -> Prop :=
| offline_ret a : offline (Ret a)
| offline_throw e : offline (Throw e)
| offline_emit ev k :
    match ev with ESleep _ | EGet _ _ => False | _ => True end ->
    offline k -> offline (Emit ev k).

(** The pacing of a trace: every request has a timeout of 30 and comes
    after a sleep of at least one second that no earlier request has used.
    [armed] tells whether such a sleep is pending. *)
Fixpoint paced (armed : bool) (t : list event) : bool :=
  match t with
  | [] => true
  | ESleep seconds :: rest => paced (armed || (1 <=? seconds)) rest
  | EGet _ timeout :: rest => armed && (timeout =? 30) && paced false rest
  | _ :: rest => paced armed rest
  end.

(** The same of a program, whatever the API answers. *)
Inductive pacing {A} : bool -> prog A -> Prop :=
| pacing_ret b a : pacing b (Ret a)
| pacing_throw b e : pacing b (Throw e)
| pacing_sleep b k : pacing true k -> pacing b (Emit (ESleep 1) k)
| pacing_emit b ev k :
    match ev with ESleep _ | EGet _ _ => False | _ => True end ->
    pacing b k -> pacing b (Emit ev k)
| pacing_get url k :
    (forall r, pacing false (k r)) -> pacing true (HttpGet url 30 k).

(** The ten weather columns, in the order of [param_mapping]. *)
Definition weather_columns : list string := map snd param_mapping.

(** No weather cell of the row holds the missing-data value. *)
Definition no_sentinel {D} (r : row D) : Prop :=
  Forall (fun cell => is_sentinel (snd cell) = false) (weather r).

(** The cells a row takes from the site and its configuration entry. *)
Definition of_site {D} (site : string) (site_info : pyval) (r : row D) : Prop :=
  site_code r = site
  /\ site_info.["POINTS"] = Ok (points r)
  /\ site_info.["lat"] = Ok (latitude r)
  /\ site_info.["long"] = Ok (longitude r).

(** The year, month and day of a row are what [int] makes of the three
    slices of the date string [d]. *)
Definition date_parts {D} (d : string) (r : row D) : Prop :=
  py_int (slice 0 4 d) = Ok (year r)
  /\ py_int (slice 4 6 d) = Ok (month r)
  /\ py_int (slice 6 8 d) = Ok (day r).

(* ------------------------------------------------------------------ *)
(** ** The scenario of site "A", year 2020 *)

(** 15.2 as the JSON decoder reads it: the nearest binary64 number. *)
Definition f15_2 : float := 0x1.e666666666666p+3%float.

(** [{"properties":{"parameter":{"T2M":{"20200101": 15.2, "20200102": -999}}}}] *)
Definition scenario_series : pydict :=
  [("20200101", PFloat f15_2); ("20200102", PInt (-999))].

Definition scenario_parameters : pydict := [("T2M", PDict scenario_series)].

Definition scenario_response : pyval :=
  PDict [("properties", PDict [("parameter", PDict scenario_parameters)])].

Definition site_entry (pts lat long : pyval) : pyval :=
  PDict [("lat", lat); ("long", long); ("POINTS", pts)].

Definition scenario_site_info : pyval := site_entry (PStr "P1") (PInt 40) (PInt (-105)).

Definition scenario_config (years : list pyval) : pyval :=
  PDict [ ("sites", PList [PStr "A"]);
          ("A", scenario_site_info);
          ("years", PList years);
          ("api_settings",
            PDict [("parameters", PList [PStr "T2M"; PStr "WS2M"]);
                   ("community", PStr "AG")]) ].

Definition scenario_api : API := fun _ => Body scenario_response.

Definition all_null_but (air_temp : pyval) : list (string * pyval) :=
  [ ("air_temp_c", air_temp);
    ("air_temp_max_c", PNone);
    ("dewpoint_temp_c", PNone);
    ("solar_radiation_kwh_m2", PNone);
    ("wind_speed_ms", PNone);
    ("wind_speed_max_ms", PNone);
    ("wind_direction_deg", PNone);
    ("wind_direction_max_deg", PNone);
    ("cloud_cover_pct", PNone);
    ("precipitation_mm", PNone) ].

(** A response in which the series of WS2M has no entry for 2020-01-02. *)
Definition sparse_parameters : pydict :=
  [ ("T2M", PDict scenario_series);
    ("WS2M", PDict [("20200101", PInt 3)]) ].

Definition sparse_response : pyval :=
  PDict [("properties", PDict [("parameter", PDict sparse_parameters)])].

(** [{"properties":{"parameter":{}}}] *)
Definition empty_response : pyval :=
  PDict [("properties", PDict [("parameter", PDict [])])].

(** [{"properties":["parameter"]}]: no parameter mapping at all. *)
Definition list_response : pyval :=
  PDict [("properties", PList [PStr "parameter"])].

Definition list_api : API := fun _ => Body list_response.

Definition scenario_frame : DataFrame :=
  [ mkRow "A" (PStr "P1") (PInt 40) (PInt (-105))
      (timestamp_of_ymd 2020 1 1) 2020 1 1 (all_null_but (PFloat f15_2));
    mkRow "A" (PStr "P1") (PInt 40) (PInt (-105))
      (timestamp_of_ymd 2020 1 2) 2020 1 2 (all_null_but PNone) ].

Definition scenario_site_path : string :=
  "nasa_power_data/A_daily_weather_2020-2020.csv".

Definition failing_api : API := fun _ => TransportFailure.

(** A configuration that lists site "B" and has no entry for it. *)
Definition missing_site_config : pydict :=
  [ ("sites", PList [PStr "A"; PStr "B"]);
    ("A", scenario_site_info);
    ("years", PList [PInt 2020]);
    ("api_settings",
      PDict [("parameters", PList [PStr "T2M"]); ("community", PStr "AG")]) ].

(** The URL of the scenario's request. *)
Definition scenario_url : string :=
  "https://power.larc.nasa.gov/api/temporal/daily/point?parameters=T2M,WS2M&community=AG&longitude=-105&latitude=40&start=20200101&end=20201231&format=json".

(* ------------------------------------------------------------------ *)
(** ** The builtins on small inputs *)

Example py_int_2020 : py_int "2020" = Ok 2020.
Proof. reflexivity. Qed.

Example py_int_01 : py_int "01" = Ok 1.
Proof. reflexivity. Qed.

Example py_int_empty : py_int "" = Raise ValueError.
Proof. reflexivity. Qed.

Example py_int_letters : py_int "20a0" = Raise ValueError.
Proof. reflexivity. Qed.

Example slice_date : (slice 0 4 "20200102", slice 4 6 "20200102", slice 6 8 "20200102")
                     = ("2020", "01", "02").
Proof. reflexivity. Qed.

Example ref_to_datetime_2020 :
  ref_to_datetime "20200101" = Some 1577836800000000000.
Proof. reflexivity. Qed.

Example ref_to_datetime_feb30 : ref_to_datetime "20200230" = None.
Proof. reflexivity. Qed.

(* ------------------------------------------------------------------ *)
(** ** Results and runs: general facts *)

Lemma mapR_ok {A B} (f : A -> result B) (g : A -> B) (l : list A) :
  (forall x, In x l -> f x = Ok (g x)) -> mapR f l = Ok (map g l).
Proof.
  induction l as [|x xs IH]; intros Hf; cbn; [reflexivity|].
  rewrite (Hf x (or_introl eq_refl)). cbn.
  rewrite IH by (intros y Hy; apply Hf; now right). reflexivity.
Qed.

Lemma seq_index_head {A} (x : A) (l : list A) : seq_index (x :: l) 0 = Ok x.
Proof.
  unfold seq_index. cbn [List.length Z.ltb Z.compare orb].
  destruct (Z.leb_spec (Z.of_nat (S (List.length l))) 0) as [H|H]; [lia|].
  reflexivity.
Qed.

Lemma dict_get_In {V} (k : string) (d : list (string * V)) (v : V) :
  dict_get k d = Some v -> In (k, v) d.
Proof.
  induction d as [|[k' v'] rest IH]; cbn; [discriminate|].
  destruct (String.eqb k k') eqn:E.
  - apply String.eqb_eq in E. intros [= ->]. left. now subst.
  - intros H. right. auto.
Qed.

Lemma site_code_is_string (config site_code site_info years : pyval) :
  py_getitem config site_code = Ok site_info ->
  config.["years"] = Ok years ->
  exists s, site_code = PStr s.
Proof.
  destruct config; cbn; try discriminate.
  destruct site_code; try discriminate. intros _ _. now eexists.
Qed.

Lemma run_bind {A B} (api : API) (p : prog A) (f : A -> prog B) :
  run api (bind p f) =
  match run api p with
  | (t, Ok a) => let (t', r) := run api (f a) in (t ++ t', r)
  | (t, Raise e) => (t, Raise e)
  end.
Proof.
  induction p as [a|e|ev k IH|url tmo k IH]; cbn.
  - now destruct (run api (f a)).
  - reflexivity.
  - rewrite IH. destruct (run api k) as [t [a|e]]; [|reflexivity].
    now destruct (run api (f a)).
  - rewrite IH. destruct (run api (k (api url))) as [t [a|e]]; [|reflexivity].
    now destruct (run api (f a)).
Qed.

Lemma result_of_bind {A B} (api : API) (p : prog A) (f : A -> prog B) :
  result_of api (bind p f) =
  match result_of api p with
  | Ok a => result_of api (f a)
  | Raise e => Raise e
  end.
Proof.
  unfold result_of. rewrite run_bind.
  destruct (run api p) as [t [a|e]]; cbn; [|reflexivity].
  now destruct (run api (f a)).
Qed.

Lemma trace_of_bind {A B} (api : API) (p : prog A) (f : A -> prog B) :
  trace_of api (bind p f) =
  trace_of api p ++ match result_of api p with
                    | Ok a => trace_of api (f a)
                    | Raise _ => []
                    end.
Proof.
  unfold trace_of, result_of. rewrite run_bind.
  destruct (run api p) as [t [a|e]]; cbn; [|now rewrite app_nil_r].
  now destruct (run api (f a)).
Qed.

Lemma run_lift {A} (api : API) (r : result A) : run api (lift r) = ([], r).
Proof. now destruct r. Qed.

Lemma result_of_lift {A} (api : API) (r : result A) : result_of api (lift r) = r.
Proof. unfold result_of. now rewrite run_lift. Qed.

Lemma result_of_log (api : API) (lvl : level) (msg : logmsg) :
  result_of api (log lvl msg) = Ok tt.
Proof. reflexivity. Qed.

Lemma result_of_emit (api : API) (ev : event) : result_of api (emit ev) = Ok tt.
Proof. reflexivity. Qed.

Lemma fails_bind_l {A B} (api : API) (p : prog A) (f : A -> prog B) :
  fails api p -> fails api (bind p f).
Proof. intros [e He]. exists e. now rewrite result_of_bind, He. Qed.

Lemma fails_bind_r {A B} (api : API) (p : prog A) (f : A -> prog B) :
  (forall a, fails api (f a)) -> fails api (bind p f).
Proof.
  intros Hf. unfold fails. rewrite result_of_bind.
  destruct (result_of api p) as [a|e]; [apply Hf|now exists e].
Qed.

Lemma quiet_bind {A B} (p : prog A) (f : A -> prog B) :
  quiet p -> (forall a, quiet (f a)) -> quiet (bind p f).
Proof.
  intros Hp Hf. induction Hp; cbn; auto; constructor; auto.
Qed.

Lemma quiet_lift {A} (r : result A) : quiet (lift r).
Proof. destruct r; constructor. Qed.

Lemma quiet_log {lvl msg} : quiet (log lvl msg).
Proof. repeat constructor. Qed.

Lemma quiet_files {A} (api : API) (p : prog A) :
  quiet p -> files_written (trace_of api p) = [].
Proof.
  unfold trace_of. intros Hp.
  induction Hp as [a|e|ev k Hev Hk IH|url tmo k Hk IH]; cbn; auto.
  - destruct (run api k) as [t r]. cbn in *. now destruct ev.
  - specialize (IH (api url)). now destruct (run api (k (api url))).
Qed.

Lemma files_written_app (t1 t2 : list event) :
  files_written (t1 ++ t2) = files_written t1 ++ files_written t2.
Proof.
  induction t1 as [|ev t1 IH]; cbn; [reflexivity|].
  destruct ev; cbn; now rewrite ?IH.
Qed.

Lemma requests_made_app (t1 t2 : list event) :
  requests_made (t1 ++ t2) = requests_made t1 ++ requests_made t2.
Proof.
  induction t1 as [|ev t1 IH]; cbn; [reflexivity|].
  destruct ev; cbn; now rewrite ?IH.
Qed.

(* ------------------------------------------------------------------ *)
(** ** Row normalization *)

Lemma weather_cell_expected (params : pydict) (d nasa : string) :
  (forall v, dict_get nasa params = Some v -> is_series v = true) ->
  weather_cell (PDict params) d nasa = Ok (expected_cell params d nasa).
Proof.
  intros Hs. unfold weather_cell, expected_cell, dict_mem. cbn.
  unfold dict_mem. destruct (dict_get nasa params) as [v|] eqn:E; cbn; [|reflexivity].
  specialize (Hs v eq_refl).
  destruct v as [| | | | | |series]; try discriminate. cbn.
  now destruct (dict_get d series).
Qed.

Lemma field_of_cells (cell : string -> pyval) (nasa col : string) :
  In (nasa, col) param_mapping ->
  dict_get col (map (fun pc => (snd pc, cell (fst pc))) param_mapping)
  = Some (cell nasa).
Proof.
  unfold param_mapping. cbn [In].
  intros H. repeat (destruct H as [[= <- <-]|H]; [reflexivity|]). destruct H.
Qed.

Lemma NoDup_map_pair {A B C} (f : A -> B) (g : A -> C) (l : list A) :
  NoDup (map g l) -> NoDup (map (fun x => (f x, g x)) l).
Proof.
  induction l as [|a l IH]; cbn; intros H; [constructor|].
  inversion H as [|? ? Hnotin Hrest]; subst. constructor; [|auto].
  intros Hin. apply Hnotin. apply in_map_iff in Hin.
  destruct Hin as (x & [= _ Hg] & Hx). rewrite <- Hg. now apply in_map.
Qed.

Section Normalize.

Variables (site : string) (site_info raw_data : pyval).
Variables (params : pydict) (first_param : string) (first_series : pydict)
          (others : pydict).

(** A successful response in the shape the API documents: a non-empty
    mapping from parameter codes to series, the first of them keyed by
    dates. *)
Hypothesis Hresponse : response_parameters raw_data = Ok (PDict params).
Hypothesis Hfirst : params = (first_param, PDict first_series) :: others.
Hypothesis Hseries : forall k v, In (k, v) params -> is_series v = true.
Hypothesis Hdates : forallb date_key_ok (dict_keys first_series) = true.
Hypothesis Hsite : site_info_ok site_info = true.

Lemma row_of_date_spec (d : string) :
  In d (dict_keys first_series) ->
  exists r, row_of_date site site_info (PDict params) d = Ok r
            /\ site_code r = site /\ date r = d
            /\ forall nasa col, In (nasa, col) param_mapping ->
                 field r col = Some (expected_cell params d nasa).
Proof.
  intros Hd. unfold row_of_date.
  unfold site_info_ok in Hsite. apply andb_true_iff in Hsite as [Hs Hlong].
  apply andb_true_iff in Hs as [Hpts Hlat].
  destruct (site_info.["POINTS"]) as [pts|]; [|discriminate].
  destruct (site_info.["lat"]) as [lat|]; [|discriminate].
  destruct (site_info.["long"]) as [long|]; [|discriminate].
  rewrite forallb_forall in Hdates. specialize (Hdates d Hd).
  unfold date_key_ok in Hdates. apply andb_true_iff in Hdates as [Hym Hday].
  apply andb_true_iff in Hym as [Hy Hm].
  destruct (py_int (slice 0 4 d)) as [y|]; [|discriminate].
  destruct (py_int (slice 4 6 d)) as [m|]; [|discriminate].
  destruct (py_int (slice 6 8 d)) as [dd|]; [|discriminate].
  cbn [bindR].
  rewrite (mapR_ok _ (fun pc => (snd pc, expected_cell params d (fst pc)))).
  - cbn [bindR]. eexists. split; [reflexivity|]. cbn. repeat split.
    intros nasa col Hin. unfold field. cbn [weather].
    apply (field_of_cells (expected_cell params d)), Hin.
  - intros [nasa col] _. cbn [fst snd].
    rewrite weather_cell_expected; [reflexivity|].
    intros v Hv. apply (Hseries nasa). now apply dict_get_In.
Qed.

(** The rows of the response: one per key of the first series, in the
    order of the keys, each with the cells [expected_cell] describes. *)
Lemma rows_of_response_spec :
  exists rows,
    rows_of_response site site_info raw_data = Ok rows
    /\ map date rows = dict_keys first_series
    /\ Forall (fun r => site_code r = site
                        /\ forall nasa col, In (nasa, col) param_mapping ->
                             field r col = Some (expected_cell params (date r) nasa))
              rows.
Proof.
  unfold rows_of_response. rewrite Hresponse. cbn [bindR].
  unfold rows_of_parameters.
  assert (Hk : py_keys (PDict params) = Ok (first_param :: dict_keys others))
    by (rewrite Hfirst; reflexivity).
  assert (Hg : (PDict params).[first_param] = Ok (PDict first_series))
    by (rewrite Hfirst; cbn; now rewrite String.eqb_refl).
  rewrite Hk. cbn [bindR]. rewrite seq_index_head. cbn [bindR].
  rewrite Hg. cbn [bindR py_keys].
  assert (Hall : forall d, In d (dict_keys first_series) ->
            exists r, row_of_date site site_info (PDict params) d = Ok r
                      /\ site_code r = site /\ date r = d
                      /\ forall nasa col, In (nasa, col) param_mapping ->
                           field r col = Some (expected_cell params d nasa))
    by apply row_of_date_spec.
  clear Hdates. induction (dict_keys first_series) as [|d ds IH]; cbn.
  - exists []. repeat split; constructor.
  - destruct (Hall d (or_introl eq_refl)) as (r & Hr & Hs & Hd & Hf).
    destruct IH as (rows & Hrows & Hmap & Hforall).
    { intros d' Hd'. apply Hall. now right. }
    rewrite Hr, Hrows. cbn. exists (r :: rows). repeat split.
    + cbn. now rewrite Hd, Hmap.
    + constructor; [|exact Hforall]. split; [exact Hs|].
      intros nasa col Hin. rewrite Hd. now apply Hf.
Qed.

(** C1: for a successful response and every date of the date enumeration
    (the keys of the first series) there is a row, and each of the ten
    weather cells of a row is the value of its parameter at the row's date
    unchanged when that value is not -999, null when it is -999, and null
    when the response has no such parameter; no exception is raised. *)
Theorem C1_weather_fields :
  exists rows,
    rows_of_response site site_info raw_data = Ok rows
    /\ (forall d, In d (dict_keys first_series) ->
          exists r, In r rows /\ date r = d)
    /\ forall r nasa col,
         In r rows -> In (nasa, col) param_mapping ->
         (forall series v,
             dict_get nasa params = Some (PDict series) ->
             dict_get (date r) series = Some v ->
             is_sentinel v = false -> field r col = Some v)
         /\ (forall series v,
                dict_get nasa params = Some (PDict series) ->
                dict_get (date r) series = Some v ->
                is_sentinel v = true -> field r col = Some PNone)
         /\ (dict_get nasa params = None -> field r col = Some PNone).
Proof.
  destruct rows_of_response_spec as (rows & Hrows & Hmap & Hall).
  exists rows. split; [exact Hrows|]. split.
  - intros d Hd. rewrite <- Hmap in Hd. apply in_map_iff in Hd.
    destruct Hd as (r & Hr & Hin). now exists r.
  - intros r nasa col Hr Hin. rewrite Forall_forall in Hall.
    destruct (Hall r Hr) as [_ Hf]. specialize (Hf nasa col Hin).
    unfold expected_cell in Hf. repeat split.
    + intros series v Hp Hv Hs. now rewrite Hp, Hv, Hs in Hf.
    + intros series v Hp Hv Hs. now rewrite Hp, Hv, Hs in Hf.
    + intros Hp. now rewrite Hp in Hf.
Qed.

(** C9: when a mapped parameter is present in the response and its series
    has no entry for a date of the enumeration, the lookup gives no
    exception and the cell of that date's row is null. *)
Theorem C9_missing_date_entry :
  exists rows,
    rows_of_response site site_info raw_data = Ok rows
    /\ forall r nasa col series,
         In r rows -> In (nasa, col) param_mapping ->
         dict_get nasa params = Some (PDict series) ->
         dict_get (date r) series = None ->
         weather_cell (PDict params) (date r) nasa = Ok PNone
         /\ field r col = Some PNone.
Proof.
  destruct rows_of_response_spec as (rows & Hrows & Hmap & Hall).
  exists rows. split; [exact Hrows|].
  intros r nasa col series Hr Hin Hp Hv. rewrite Forall_forall in Hall.
  destruct (Hall r Hr) as [_ Hf]. specialize (Hf nasa col Hin).
  assert (He : expected_cell params (date r) nasa = PNone)
    by (unfold expected_cell; now rewrite Hp, Hv).
  split; [|now rewrite Hf, He].
  rewrite weather_cell_expected, He; [reflexivity|].
  intros v Hv'. apply (Hseries nasa). now apply dict_get_In.
Qed.

(** C6: the rows of a successful response are one per (site, date) pair,
    and their dates are exactly the keys of the parameter that comes first
    in the response's parameter mapping (the keys of a mapping are
    distinct: [NoDup]). *)
Theorem C6_one_record_per_date :
  NoDup (dict_keys first_series) ->
  exists rows,
    rows_of_response site site_info raw_data = Ok rows
    /\ map date rows = dict_keys first_series
    /\ (forall d, In d (map date rows) <-> In d (dict_keys first_series))
    /\ Forall (fun r => site_code r = site) rows
    /\ NoDup (map (fun r => (site_code r, date r)) rows).
Proof.
  intros Hnodup.
  destruct rows_of_response_spec as (rows & Hrows & Hmap & Hall).
  exists rows. split; [exact Hrows|]. split; [exact Hmap|]. split; [|split].
  - intros d. now rewrite Hmap.
  - eapply Forall_impl; [|exact Hall]. now intros r [Hs _].
  - apply NoDup_map_pair. now rewrite Hmap.
Qed.

End Normalize.

Lemma all_series (params : pydict) :
  forallb (fun kv => is_series (snd kv)) params = true ->
  forall k v, In (k, v) params -> is_series v = true.
Proof.
  intros H k v Hin. rewrite forallb_forall in H. exact (H (k, v) Hin).
Qed.

Lemma C1_weather_fields_witness :
  exists rows,
    rows_of_response "A" scenario_site_info scenario_response = Ok rows
    /\ (forall d, In d (dict_keys scenario_series) ->
          exists r, In r rows /\ date r = d)
    /\ forall r nasa col,
         In r rows -> In (nasa, col) param_mapping ->
         (forall series v,
             dict_get nasa scenario_parameters = Some (PDict series) ->
             dict_get (date r) series = Some v ->
             is_sentinel v = false -> field r col = Some v)
         /\ (forall series v,
                dict_get nasa scenario_parameters = Some (PDict series) ->
                dict_get (date r) series = Some v ->
                is_sentinel v = true -> field r col = Some PNone)
         /\ (dict_get nasa scenario_parameters = None -> field r col = Some PNone).
Proof.
  apply (C1_weather_fields "A" scenario_site_info scenario_response
           scenario_parameters "T2M" scenario_series []).
  - reflexivity.
  - reflexivity.
  - apply all_series. reflexivity.
  - reflexivity.
  - reflexivity.
Defined.

Lemma C9_missing_date_entry_witness :
  exists rows,
    rows_of_response "A" scenario_site_info sparse_response = Ok rows
    /\ forall r nasa col series,
         In r rows -> In (nasa, col) param_mapping ->
         dict_get nasa sparse_parameters = Some (PDict series) ->
         dict_get (date r) series = None ->
         weather_cell (PDict sparse_parameters) (date r) nasa = Ok PNone
         /\ field r col = Some PNone.
Proof.
  apply (C9_missing_date_entry "A" scenario_site_info sparse_response
           sparse_parameters "T2M" scenario_series
           [("WS2M", PDict [("20200101", PInt 3)])]).
  - reflexivity.
  - reflexivity.
  - apply all_series. reflexivity.
  - reflexivity.
  - reflexivity.
Defined.

Lemma C6_one_record_per_date_witness :
  exists rows,
    rows_of_response "A" scenario_site_info scenario_response = Ok rows
    /\ map date rows = dict_keys scenario_series
    /\ (forall d, In d (map date rows) <-> In d (dict_keys scenario_series))
    /\ Forall (fun r => site_code r = "A") rows
    /\ NoDup (map (fun r => (site_code r, date r)) rows).
Proof.
  apply (C6_one_record_per_date "A" scenario_site_info scenario_response
           scenario_parameters "T2M" scenario_series []).
  - reflexivity.
  - reflexivity.
  - apply all_series. reflexivity.
  - reflexivity.
  - reflexivity.
  - repeat constructor; cbn; intuition discriminate.
Defined.

(** C7: for site "A", year 2020 and the response
    [{"properties":{"parameter":{"T2M":{"20200101": 15.2, "20200102": -999}}}}]
    normalization gives exactly two records, 2020-01-01 with air_temp_c 15.2
    and 2020-01-02 with air_temp_c null, the nine other weather cells null
    on both; the per-site frame holds the same two rows with their dates as
    timestamps. *)
Theorem C7_scenario :
  (forall pts lat long,
      rows_of_response "A" (site_entry pts lat long) scenario_response
      = Ok [ mkRow "A" pts lat long "20200101" 2020 1 1 (all_null_but (PFloat f15_2));
             mkRow "A" pts lat long "20200102" 2020 1 2 (all_null_but PNone) ])
  /\ result_of scenario_api (_process_site_data (scenario_config [PInt 2020]) (PStr "A"))
     = Ok [ mkRow "A" (PStr "P1") (PInt 40) (PInt (-105))
              (timestamp_of_ymd 2020 1 1) 2020 1 1 (all_null_but (PFloat f15_2));
            mkRow "A" (PStr "P1") (PInt 40) (PInt (-105))
              (timestamp_of_ymd 2020 1 2) 2020 1 2 (all_null_but PNone) ].
Proof.
  split.
  - intros pts lat long. reflexivity.
  - vm_compute. reflexivity.
Qed.

(** C2: a response that passes the structure test with an empty parameter
    mapping.  Taking the first key of the mapping raises [IndexError];
    nothing catches it below [main], and the run ends with status 1 and no
    file. *)
Theorem C2_empty_parameter_mapping :
  invalid_structure empty_response = Ok false
  /\ (forall site site_info,
         rows_of_parameters site site_info (PDict []) = Raise IndexError)
  /\ (forall site site_info,
         rows_of_response site site_info empty_response = Raise IndexError)
  /\ result_of (fun _ => Body empty_response)
       (_process_site_data (scenario_config [PInt 2020]) (PStr "A"))
     = Raise IndexError
  /\ exit_status (fun _ => Body empty_response)
       (Some (scenario_config [PInt 2020])) = 1
  /\ files_written (fst (main (fun _ => Body empty_response)
                           (Some (scenario_config [PInt 2020])))) = [].
Proof.
  repeat split; vm_compute; reflexivity.
Qed.

(* ------------------------------------------------------------------ *)
(** ** Failed fetches *)

Section FailedFetch.

Context {builtins : Builtins} {pandas : Pandas}.
Variables (config : pyval) (api : API).

Lemma years_loop_skip (site : string) (site_info : pyval)
    (before : list pyval) (year : pyval) (after : list pyval) :
  result_of api (_fetch_data config site year) = Ok None ->
  forall all_data,
    result_of api (years_loop config site site_info (before ++ year :: after) all_data)
    = result_of api (years_loop config site site_info (before ++ after) all_data).
Proof.
  intros Hfail. induction before as [|y ys IH]; intros all_data; cbn [app years_loop].
  - rewrite !result_of_bind, result_of_emit, Hfail.
    now rewrite result_of_bind, result_of_log.
  - rewrite !result_of_bind, result_of_emit.
    destruct (result_of api (_fetch_data config site y)) as [[raw|]|e];
      [| |reflexivity].
    + rewrite !result_of_bind, result_of_lift.
      destruct (rows_of_response site site_info raw); [apply IH|reflexivity].
    + rewrite !result_of_bind, result_of_log. apply IH.
Qed.

Lemma years_loop_all_fail (site : string) (site_info : pyval) (years : list pyval) :
  (forall y, In y years -> result_of api (_fetch_data config site y) = Ok None) ->
  forall all_data,
    result_of api (years_loop config site site_info years all_data) = Ok all_data.
Proof.
  induction years as [|y ys IH]; intros Hfail all_data; cbn [years_loop];
    [reflexivity|].
  rewrite !result_of_bind, result_of_emit, (Hfail y (or_introl eq_refl)).
  rewrite result_of_bind, result_of_log. apply IH.
  intros y' Hy'. apply Hfail. now right.
Qed.

Lemma build_api_url_site_info (site_info year : pyval) (url : string) :
  _build_api_url config site_info year = Ok url ->
  exists lat long, site_info.["lat"] = Ok lat /\ site_info.["long"] = Ok long.
Proof.
  unfold _build_api_url, query_params. intros H.
  destruct (config.["api_settings"]) as [s|]; [cbn [bindR] in H|discriminate].
  destruct (s.["parameters"]) as [ps|]; [cbn [bindR] in H|discriminate].
  destruct (py_join "," ps) as [j|]; [cbn [bindR] in H|discriminate].
  destruct (s.["community"]) as [c|]; [cbn [bindR] in H|discriminate].
  destruct (site_info.["long"]) as [long|]; [cbn [bindR] in H|discriminate].
  destruct (site_info.["lat"]) as [lat|]; [|discriminate].
  now exists lat, long.
Qed.

Lemma fetch_data_none (site : string) (site_info year : pyval) (url : string) :
  config.[site] = Ok site_info ->
  _build_api_url config site_info year = Ok url ->
  fetch_failure (api url) ->
  result_of api (_fetch_data config site year) = Ok None.
Proof.
  intros Hsite Hurl Hfail. unfold _fetch_data.
  destruct (build_api_url_site_info _ _ _ Hurl) as (lat & long & Hlat & Hlong).
  rewrite Hsite. cbn [lift bind]. rewrite Hurl. cbn [lift bind].
  rewrite Hlat, Hlong. cbn [lift bind log emit]. unfold result_of. cbn [run].
  destruct (api url) as [| | |data]; try reflexivity.
  cbn in Hfail. destruct (invalid_structure data) as [[|]|e]; try reflexivity.
  now elim Hfail.
Qed.

Lemma run_process_no_years (site : string) (site_info : pyval)
    (years : list pyval) :
  config.[site] = Ok site_info ->
  (let* ys := config.["years"] in py_iter ys) = Ok years ->
  result_of api (years_loop config site site_info years []) = Ok [] ->
  result_of api (_process_site_data config (PStr site)) = Ok []
  /\ In (ELog WARNING (NoDataCollected site))
        (trace_of api (_process_site_data config (PStr site))).
Proof.
  intros Hentry Hyears Hloop. unfold _process_site_data.
  rewrite Hentry, Hyears. cbn [lift bind site_name]. split.
  - rewrite result_of_bind, Hloop. reflexivity.
  - rewrite trace_of_bind, Hloop. apply in_or_app. right. now left.
Qed.

(** The failures [_fetch_data] absorbs: a transport error, a non-success
    status, a body that is not JSON, a body that fails its structure test.
    Such a (site, year) pair adds no row and the loop goes on with the
    years after it; a site with no other pair gives an empty dataset, with
    a warning and without an exception.  A body of another invalid shape
    is not among them ([C3_invalid_shape_aborts]). *)
Lemma absorbed_failure_skipped :
  (forall site site_info year url,
      config.[site] = Ok site_info ->
      _build_api_url config site_info year = Ok url ->
      fetch_failure (api url) ->
      result_of api (_fetch_data config site year) = Ok None)
  /\ (forall site site_info before year after all_data,
         result_of api (_fetch_data config site year) = Ok None ->
         result_of api
           (years_loop config site site_info (before ++ year :: after) all_data)
         = result_of api
             (years_loop config site site_info (before ++ after) all_data))
  /\ (forall site site_info years,
         config.[site] = Ok site_info ->
         (let* ys := config.["years"] in py_iter ys) = Ok years ->
         (forall y, In y years ->
                    result_of api (_fetch_data config site y) = Ok None) ->
         result_of api (_process_site_data config (PStr site)) = Ok []
         /\ In (ELog WARNING (NoDataCollected site))
               (trace_of api (_process_site_data config (PStr site)))).
Proof.
  split; [|split].
  - intros. eapply fetch_data_none; eauto.
  - intros. now apply years_loop_skip.
  - intros site site_info years Hentry Hyears Hfail.
    apply (run_process_no_years site site_info years); auto.
    now apply years_loop_all_fail.
Qed.

End FailedFetch.

(** C3: a response of invalid shape that is not skipped.  The body
    [{"properties":["parameter"]}] has no parameter mapping, yet passes the
    structure test of [_fetch_data], which returns it; reading
    [raw_data['properties']['parameter']] then raises [TypeError], which
    nothing catches below [main]: with the years 2020 and 2021 configured
    the run ends with exit status 1 after the request for 2020, without a
    request for 2021 and without a file. *)
Theorem C3_invalid_shape_aborts :
  invalid_structure list_response = Ok false
  /\ result_of list_api
       (_fetch_data (scenario_config [PInt 2020; PInt 2021]) "A" (PInt 2020))
     = Ok (Some list_response)
  /\ (forall site site_info,
         rows_of_response site site_info list_response = Raise TypeError)
  /\ result_of list_api
       (_process_site_data (scenario_config [PInt 2020; PInt 2021]) (PStr "A"))
     = Raise TypeError
  /\ requests_made
       (trace_of list_api
          (_process_site_data (scenario_config [PInt 2020; PInt 2021]) (PStr "A")))
     = [scenario_url]
  /\ exit_status list_api (Some (scenario_config [PInt 2020; PInt 2021])) = 1
  /\ files_written
       (fst (main list_api (Some (scenario_config [PInt 2020; PInt 2021])))) = [].
Proof.
  repeat split; vm_compute; reflexivity.
Qed.

(* ------------------------------------------------------------------ *)
(** ** A site without a configuration entry *)

Section MissingSite.

Context {builtins : Builtins} {pandas : Pandas}.
Variables (config : pyval) (api : API).

Lemma summary_sites_fails (sites : list pyval) (item : pyval) :
  In item sites ->
  is_ok (py_getitem config item) = false ->
  fails api (summary_sites config sites).
Proof.
  intros Hin Hitem. induction sites as [|s rest IH]; [destruct Hin|].
  cbn [summary_sites]. destruct Hin as [->|Hin].
  - apply fails_bind_l. destruct (py_getitem config item) as [v|e];
      [discriminate|]. now exists e.
  - do 4 (apply fails_bind_r; intros ?). now apply IH.
Qed.

Lemma print_config_summary_fails (sites : list pyval) (item : pyval) :
  config.["sites"] = Ok (PList sites) ->
  In item sites ->
  is_ok (py_getitem config item) = false ->
  fails api (print_config_summary config).
Proof.
  intros Hsites Hin Hitem. unfold print_config_summary.
  do 9 (apply fails_bind_r; intros ?).
  rewrite Hsites. cbn [bindR py_iter lift bind].
  now apply (summary_sites_fails sites item).
Qed.

Lemma main_exit_of_failure :
  fails api (pipeline config) -> exit_status api (Some config) = 1.
Proof.
  intros [e He]. unfold exit_status, main. unfold result_of in He.
  destruct (run api (pipeline config)) as [t r]. cbn in He. now subst r.
Qed.

End MissingSite.

(** C10: a site code of the configured sites without a configuration entry.
    The lookup raises [KeyError] in [_process_site_data] before any request,
    nothing below [main] catches it, and the run ends with exit status 1. *)
Theorem C10_missing_site_entry `{Builtins} `{Pandas} (api : API)
    (d : pydict) (sites : list pyval) (s : string) :
  dict_get "sites" d = Some (PList sites) ->
  In (PStr s) sites ->
  dict_get s d = None ->
  run api (_process_site_data (PDict d) (PStr s)) = ([], Raise KeyError)
  /\ exit_status api (Some (PDict d)) = 1.
Proof.
  intros Hsites Hin Hmissing. split.
  - unfold _process_site_data. cbn [py_getitem].
    rewrite Hmissing. reflexivity.
  - apply main_exit_of_failure. unfold pipeline.
    apply fails_bind_r; intros _. apply fails_bind_l.
    apply (print_config_summary_fails (PDict d) api sites (PStr s)).
    + cbn [py_getitem]. now rewrite Hsites.
    + exact Hin.
    + cbn [py_getitem]. now rewrite Hmissing.
Qed.

Lemma C10_missing_site_entry_witness :
  run scenario_api (_process_site_data (PDict missing_site_config) (PStr "B"))
  = ([], Raise KeyError)
  /\ exit_status scenario_api (Some (PDict missing_site_config)) = 1.
Proof.
  apply (C10_missing_site_entry scenario_api missing_site_config
           [PStr "A"; PStr "B"] "B").
  - reflexivity.
  - right. left. reflexivity.
  - reflexivity.
Defined.

(* ------------------------------------------------------------------ *)
(** ** Order of the datasets *)

Lemma result_of_bind_ok {A B} (api : API) (p : prog A) (f : A -> prog B) (b : B) :
  result_of api (bind p f) = Ok b ->
  exists a, result_of api p = Ok a /\ result_of api (f a) = Ok b.
Proof.
  rewrite result_of_bind. destruct (result_of api p) as [a|e]; [|discriminate].
  intros Hf. now exists a.
Qed.

Lemma Sorted_date_strict (df : DataFrame) :
  Sorted date_le df -> NoDup (map date df) -> Sorted date_lt df.
Proof.
  induction 1 as [|r df Hdf IH Hhd]; intros Hnodup; [constructor|].
  cbn in Hnodup. inversion Hnodup as [|? ? Hnotin Hrest]; subst.
  constructor; [auto|].
  destruct Hhd as [|r' df' Hle]; constructor.
  unfold date_le in Hle. unfold date_lt.
  assert (date r <> date r') by (intros E; apply Hnotin; left; auto).
  lia.
Qed.

Ltac quiet_leaf :=
  first [ apply quiet_lift | apply quiet_log | apply quiet_ret | apply quiet_throw
        | apply quiet_emit; [exact I|apply quiet_ret] ].

Ltac quiet_binds :=
  repeat (apply quiet_bind; [quiet_leaf|intros ?]); try quiet_leaf.

Section Order.

Context {builtins : Builtins} {pandas : Pandas}.
Variables (config : pyval) (api : API).

Lemma quiet_fetch_data (site : string) (year : pyval) :
  quiet (_fetch_data config site year).
Proof.
  unfold _fetch_data. quiet_binds. apply quiet_get. intros response.
  destruct response as [| | |data]; try quiet_binds.
  destruct (invalid_structure data) as [[|]|e]; quiet_binds.
Qed.

Lemma quiet_years_loop (site : string) (site_info : pyval) (years : list pyval) :
  forall all_data, quiet (years_loop config site site_info years all_data).
Proof.
  induction years as [|y ys IH]; intros all_data; cbn [years_loop];
    [constructor|].
  apply quiet_bind; [unfold emit; quiet_leaf|intros _].
  apply quiet_bind; [apply quiet_fetch_data|intros [raw|]].
  - apply quiet_bind; [apply quiet_lift|intros rows; apply IH].
  - apply quiet_bind; [apply quiet_log|intros _; apply IH].
Qed.

Lemma quiet_process_site_data (site_code : pyval) :
  quiet (_process_site_data config site_code).
Proof.
  unfold _process_site_data. quiet_binds.
  apply quiet_bind; [apply quiet_years_loop|intros [|r all_data]];
    quiet_binds.
Qed.

Lemma quiet_collect_sites (sites : list pyval) :
  forall all_sites_data, quiet (collect_sites config sites all_sites_data).
Proof.
  induction sites as [|s rest IH]; intros acc; cbn [collect_sites];
    [constructor|].
  apply quiet_bind; [apply quiet_process_site_data|intros [|r df]]; apply IH.
Qed.

Lemma process_site_data_sorted (site_code : pyval) (df : DataFrame) :
  result_of api (_process_site_data config site_code) = Ok df ->
  Sorted date_le df.
Proof.
  unfold _process_site_data. intros Hrun.
  apply result_of_bind_ok in Hrun as (site_info & _ & Hrun).
  apply result_of_bind_ok in Hrun as (years & _ & Hrun).
  apply result_of_bind_ok in Hrun as (site & _ & Hrun).
  apply result_of_bind_ok in Hrun as (all_data & _ & Hrun).
  destruct all_data as [|r all_data].
  - apply result_of_bind_ok in Hrun as (u & _ & Hrun).
    injection Hrun as <-. constructor.
  - apply result_of_bind_ok in Hrun as (df0 & _ & Hrun).
    apply result_of_bind_ok in Hrun as (u & _ & Hrun).
    injection Hrun as <-. apply sort_by_date_sorted.
Qed.

Lemma combined_file_sorted (path : string) (df : DataFrame) :
  In (path, df) (files_written (trace_of api (create_combined_file config))) ->
  Sorted site_date_le df.
Proof.
  unfold create_combined_file.
  rewrite trace_of_bind, files_written_app, (quiet_files _ _ quiet_log).
  rewrite result_of_log. cbn [app].
  rewrite trace_of_bind, files_written_app, (quiet_files _ _ (quiet_lift _)).
  rewrite result_of_lift. cbn [app].
  destruct (let* s := config.["sites"] in py_iter s) as [sites|e];
    [|intros []].
  rewrite trace_of_bind, files_written_app,
    (quiet_files _ _ (quiet_collect_sites sites [])). cbn [app].
  destruct (result_of api (collect_sites config sites [])) as [[|d all]|e];
    [intros []| |intros []].
  rewrite trace_of_bind, files_written_app, (quiet_files _ _ (quiet_lift _)).
  rewrite result_of_lift. cbn [app].
  destruct (output_file config "all_sites") as [filepath|e]; [|intros []].
  cbn. intros [[= _ <-]|[]]. apply sort_by_site_date_sorted.
Qed.

(** C5, as the code has it: a per-site dataset that per-site assembly
    returns is sorted ascending by date, strictly when no two of its rows
    have the same date; the combined dataset that is written is sorted
    ascending by (site code, date), site code first. *)
Theorem C5_datasets_sorted :
  (forall site_code df,
      result_of api (_process_site_data config site_code) = Ok df ->
      Sorted date_le df /\ (NoDup (map date df) -> Sorted date_lt df))
  /\ (forall path df,
         In (path, df)
            (files_written (trace_of api (create_combined_file config))) ->
         Sorted site_date_le df).
Proof.
  split.
  - intros site_code df Hrun.
    pose proof (process_site_data_sorted site_code df Hrun) as Hsorted.
    split; [exact Hsorted|]. now apply Sorted_date_strict.
  - apply combined_file_sorted.
Qed.

End Order.

Lemma C5_datasets_sorted_witness :
  (Sorted date_le scenario_frame
   /\ (NoDup (map date scenario_frame) -> Sorted date_lt scenario_frame))
  /\ Sorted site_date_le scenario_frame.
Proof.
  destruct (C5_datasets_sorted (scenario_config [PInt 2020]) scenario_api)
    as [Hsite Hcombined].
  split.
  - apply (Hsite (PStr "A")). vm_compute. reflexivity.
  - apply (Hcombined "nasa_power_data/all_sites_daily_weather_2020-2020.csv").
    vm_compute. left. reflexivity.
Defined.

(** C5 as stated fails: with the year 2020 configured twice, the dataset of
    site "A" holds every date of the response twice, and no order of equal
    dates is strictly ascending. *)
Lemma C5_not_strictly_sorted :
  exists df,
    result_of scenario_api
      (_process_site_data (scenario_config [PInt 2020; PInt 2020]) (PStr "A")) = Ok df
    /\ map date df = [ timestamp_of_ymd 2020 1 1; timestamp_of_ymd 2020 1 1;
                       timestamp_of_ymd 2020 1 2; timestamp_of_ymd 2020 1 2 ]
    /\ ~ Sorted date_lt df.
Proof.
  eexists. split; [vm_compute; reflexivity|]. split; [reflexivity|].
  intros Hsorted. apply Sorted_inv in Hsorted as [_ Hhd].
  apply HdRel_inv in Hhd. unfold date_lt in Hhd. cbn in Hhd. lia.
Qed.

(* ------------------------------------------------------------------ *)
(** ** The query string *)

Lemma no_char_app (c : ascii) (a b : string) :
  no_char c (a +++ b) = no_char c a && no_char c b.
Proof.
  induction a as [|c' a IH]; cbn; [reflexivity|].
  now rewrite IH, andb_assoc.
Qed.

Lemma split_on_none (sep : ascii) (s : string) :
  no_char sep s = true -> split_on sep s = [s].
Proof.
  induction s as [|c s IH]; cbn; [reflexivity|].
  intros H. apply andb_true_iff in H as [Hc Hs].
  apply negb_true_iff in Hc. rewrite Hc, IH by exact Hs. reflexivity.
Qed.

Lemma split_on_app (sep : ascii) (a b : string) :
  no_char sep a = true ->
  split_on sep (a +++ String sep b) = a :: split_on sep b.
Proof.
  induction a as [|c a IH]; cbn.
  - intros _. now rewrite Ascii.eqb_refl.
  - intros H. apply andb_true_iff in H as [Hc Ha].
    apply negb_true_iff in Hc. rewrite Hc, IH by exact Ha. reflexivity.
Qed.

Lemma cut_app (sep : ascii) (k v : string) :
  no_char sep k = true -> cut sep (k +++ String sep v) = (k, v).
Proof.
  induction k as [|c k IH]; cbn.
  - intros _. now rewrite Ascii.eqb_refl.
  - intros H. apply andb_true_iff in H as [Hc Hk].
    apply negb_true_iff in Hc. rewrite Hc, IH by exact Hk. reflexivity.
Qed.

Lemma concat_cons2 (sep x y : string) (l : list string) :
  String.concat sep (x :: y :: l) = x +++ sep +++ String.concat sep (y :: l).
Proof. reflexivity. Qed.

Lemma append_char (c : ascii) (s : string) : String c EmptyString +++ s = String c s.
Proof. reflexivity. Qed.

Lemma parse_query_string (kv : string * string) (params : list (string * string)) :
  forallb plain_item (kv :: params) = true ->
  parse_query (query_string (kv :: params)) = kv :: params.
Proof.
  unfold parse_query, query_string. revert kv.
  induction params as [|kv' params IH]; intros [k v] H; cbn [forallb] in H;
    apply andb_true_iff in H as [Hkv Hrest]; unfold plain_item in Hkv;
    cbn [fst snd] in Hkv; apply andb_true_iff in Hkv as [Hk Hv];
    apply andb_true_iff in Hk as [Hk_amp Hk_eq].
  - cbn [map String.concat fst snd]. rewrite append_char.
    rewrite split_on_none.
    + cbn [map]. now rewrite cut_app.
    + rewrite no_char_app. cbn. now rewrite Hk_amp, Hv.
  - cbn [map]. rewrite concat_cons2. cbn [fst snd]. rewrite !append_char.
    rewrite split_on_app.
    + cbn [map]. rewrite cut_app by exact Hk_eq. f_equal.
      specialize (IH kv' Hrest). cbn [map] in IH. rewrite append_char in IH.
      exact IH.
    + rewrite no_char_app. cbn. now rewrite Hk_amp, Hv.
Qed.

Lemma four_digit_years_check :
  forallb year_check (map (fun k => 1000 + Z.of_nat k) (seq 0 (Z.to_nat 9000))) = true.
Proof. vm_compute. reflexivity. Qed.

Lemma four_digit_year (y : Z) : 1000 <= y <= 9999 -> year_check y = true.
Proof.
  intros Hy. pose proof four_digit_years_check as Hall.
  rewrite forallb_forall in Hall. apply Hall.
  apply in_map_iff. exists (Z.to_nat (y - 1000)). split.
  - rewrite Z2Nat.id; lia.
  - apply in_seq. lia.
Qed.

(** C4: for a valid site and a four-digit year the URL is the base URL, a
    question mark and a query string whose keys are exactly parameters (the
    parameter codes joined by commas), community, longitude, latitude,
    start = YYYY0101, end = YYYY1231 and format = json, in this order and
    with no other key.  Valid: the configuration and the site entry have
    the keys read, and no value holds the separator [&]. *)
Theorem C4_query_string `{Builtins} (config site_info : pyval) (y : Z)
    (api_settings parameters community long lat : pyval) (joined : string) :
  config.["api_settings"] = Ok api_settings ->
  api_settings.["parameters"] = Ok parameters ->
  py_join "," parameters = Ok joined ->
  api_settings.["community"] = Ok community ->
  site_info.["long"] = Ok long ->
  site_info.["lat"] = Ok lat ->
  1000 <= y <= 9999 ->
  no_char "&" joined = true ->
  no_char "&" (py_str community) = true ->
  no_char "&" (py_str long) = true ->
  no_char "&" (py_str lat) = true ->
  exists qs,
    _build_api_url config site_info (PInt y) = Ok (base_url +++ "?" +++ qs)
    /\ parse_query qs
       = [ ("parameters", joined);
           ("community", py_str community);
           ("longitude", py_str long);
           ("latitude", py_str lat);
           ("start", str_of_Z y +++ "0101");
           ("end", str_of_Z y +++ "1231");
           ("format", "json") ]
    /\ String.length (str_of_Z y) = 4%nat
    /\ all_digits (str_of_Z y) = true
    /\ py_int (str_of_Z y) = Ok y.
Proof.
  intros Hsettings Hparams Hjoin Hcommunity Hlong Hlat Hy Hj Hc Hlo Hla.
  pose proof (four_digit_year y Hy) as Hcheck. unfold year_check in Hcheck.
  apply andb_true_iff in Hcheck as [Hcheck Hamp].
  apply andb_true_iff in Hcheck as [Hcheck Hdigits].
  apply andb_true_iff in Hcheck as [Hlen Hint].
  eexists. split; [|split; [|split; [|split]]].
  - unfold _build_api_url, query_params.
    rewrite Hsettings. cbn [bindR]. rewrite Hparams. cbn [bindR].
    rewrite Hjoin. cbn [bindR]. rewrite Hcommunity. cbn [bindR].
    rewrite Hlong. cbn [bindR]. rewrite Hlat. cbn [bindR]. reflexivity.
  - apply parse_query_string. cbn [forallb py_str]. unfold plain_item.
    cbn [fst snd]. rewrite !no_char_app, Hj, Hc, Hlo, Hla, Hamp. reflexivity.
  - now apply Nat.eqb_eq.
  - exact Hdigits.
  - destruct (py_int (str_of_Z y)) as [z|e]; [|discriminate].
    apply Z.eqb_eq in Hint. now subst.
Qed.

Lemma C4_query_string_witness :
  exists qs,
    _build_api_url (scenario_config [PInt 2020]) scenario_site_info (PInt 2020)
    = Ok (base_url +++ "?" +++ qs)
    /\ parse_query qs
       = [ ("parameters", "T2M,WS2M");
           ("community", py_str (PStr "AG"));
           ("longitude", py_str (PInt (-105)));
           ("latitude", py_str (PInt 40));
           ("start", str_of_Z 2020 +++ "0101");
           ("end", str_of_Z 2020 +++ "1231");
           ("format", "json") ]
    /\ String.length (str_of_Z 2020) = 4%nat
    /\ all_digits (str_of_Z 2020) = true
    /\ py_int (str_of_Z 2020) = Ok 2020.
Proof.
  apply (C4_query_string (scenario_config [PInt 2020]) scenario_site_info 2020
           (PDict [("parameters", PList [PStr "T2M"; PStr "WS2M"]);
                   ("community", PStr "AG")])
           (PList [PStr "T2M"; PStr "WS2M"]) (PStr "AG") (PInt (-105)) (PInt 40)
           "T2M,WS2M");
    try reflexivity.
  lia.
Defined.

(* ------------------------------------------------------------------ *)
(** ** The fetch client *)

Lemma fetch_outcome_some (response : http_response) (data : pyval) :
  fetch_outcome response = Some data <->
  response = Body data /\ invalid_structure data = Ok false.
Proof.
  unfold fetch_outcome. split.
  - destruct response as [| | |body]; try discriminate.
    destruct (invalid_structure body) as [[|]|e] eqn:E; try discriminate.
    intros [= <-]. now split.
  - intros [-> ->]. reflexivity.
Qed.

Section FetchData.

Context {builtins : Builtins}.
Variables (config : pyval) (api : API).

Lemma run_fetch_data_built (site : string) (site_info year : pyval) (url : string) :
  config.[site] = Ok site_info ->
  _build_api_url config site_info year = Ok url ->
  exists lat long final,
    run api (_fetch_data config site year)
    = ([ELog INFO (Fetching site year lat long); EGet url 30; final],
       Ok (fetch_outcome (api url)))
    /\ match final with ELog _ _ => True | _ => False end.
Proof.
  intros Hsite Hurl. unfold _fetch_data.
  destruct (build_api_url_site_info _ _ _ _ Hurl) as (lat & long & Hlat & Hlong).
  rewrite Hsite. cbn [lift bind]. rewrite Hurl. cbn [lift bind].
  rewrite Hlat, Hlong. cbn [lift bind log emit run]. exists lat, long.
  unfold fetch_outcome.
  destruct (api url) as [| | |data]; cbn; try (eexists; split; [reflexivity|exact I]).
  destruct (invalid_structure data) as [[|]|e]; cbn;
    eexists; (split; [reflexivity|exact I]).
Qed.

Lemma run_fetch_data_unbuilt (site : string) (year : pyval) (e : exn) :
  (let* site_info := config.[site] in _build_api_url config site_info year) = Raise e ->
  run api (_fetch_data config site year) = ([], Raise e).
Proof.
  unfold _fetch_data. destruct (config.[site]) as [site_info|e']; cbn [bindR lift bind].
  - intros ->. reflexivity.
  - intros [= ->]. reflexivity.
Qed.

(** X1: once the site entry is found and the URL is built, [_fetch_data] makes
    one request, to that URL with a timeout of 30, and returns whatever the
    API answers: the decoded body when the answer is a body that passes the
    structure test, [None] in every other case.  It raises in none. *)
Theorem fetch_data_absorbs (site : string) (site_info year : pyval) (url : string) :
  config.[site] = Ok site_info ->
  _build_api_url config site_info year = Ok url ->
  exists outcome,
    result_of api (_fetch_data config site year) = Ok outcome
    /\ (forall data, outcome = Some data <->
                     api url = Body data /\ invalid_structure data = Ok false)
    /\ requests_made (trace_of api (_fetch_data config site year)) = [url]
    /\ In (EGet url 30) (trace_of api (_fetch_data config site year)).
Proof.
  intros Hsite Hurl.
  destruct (run_fetch_data_built site site_info year url Hsite Hurl)
    as (lat & long & final & Hrun & Hfinal).
  exists (fetch_outcome (api url)). unfold result_of, trace_of. rewrite Hrun.
  cbn [fst snd]. split; [reflexivity|]. split; [|split].
  - intros data. apply fetch_outcome_some.
  - destruct final; try contradiction. reflexivity.
  - right. now left.
Qed.

(** X2: [_fetch_data] raises only what the lookup of the site entry or the
    building of the URL raises, and then before any request or log record:
    its [try] covers the request alone. *)
Theorem fetch_data_raises (site : string) (year : pyval) (e : exn) :
  result_of api (_fetch_data config site year) = Raise e ->
  trace_of api (_fetch_data config site year) = []
  /\ (let* site_info := config.[site] in _build_api_url config site_info year)
     = Raise e.
Proof.
  intros Hraise.
  destruct (let* site_info := config.[site] in _build_api_url config site_info year)
    as [url|e'] eqn:Hbuilt.
  - destruct (config.[site]) as [site_info|] eqn:Hsite; [|discriminate].
    cbn [bindR] in Hbuilt.
    destruct (run_fetch_data_built site site_info year url Hsite Hbuilt)
      as (lat & long & final & Hrun & _).
    unfold result_of in Hraise. rewrite Hrun in Hraise. discriminate.
  - pose proof (run_fetch_data_unbuilt site year e' Hbuilt) as Hrun.
    unfold result_of in Hraise. unfold trace_of. rewrite Hrun in *.
    cbn in Hraise. injection Hraise as ->. now split.
Qed.

End FetchData.

(** X3: a body passes the structure test of [_fetch_data] exactly when it is a
    mapping whose [properties] entry contains [parameter].  The entry need
    not be a mapping: a list with the item ["parameter"] or a string with
    that substring passes too, and reading the parameter mapping of such a
    body raises [TypeError]. *)
Theorem structure_test_passes (data : pyval) :
  invalid_structure data = Ok false <->
  exists d properties,
    data = PDict d
    /\ dict_get "properties" d = Some properties
    /\ py_contains "parameter" properties = Ok true
    /\ match properties with
       | PDict p => exists parameters,
                      dict_get "parameter" p = Some parameters
                      /\ response_parameters data = Ok parameters
       | _ => response_parameters data = Raise TypeError
       end.
Proof.
  split.
  - unfold invalid_structure.
    destruct data as [| | | |s|l|d]; cbn; try discriminate.
    + destruct (substr_in "properties" s); discriminate.
    + destruct (existsb _ l); discriminate.
    + unfold dict_mem.
      destruct (dict_get "properties" d) as [properties|] eqn:Hp; cbn;
        [|discriminate].
      intros H. exists d, properties. split; [reflexivity|]. split; [exact Hp|].
      unfold response_parameters. cbn [py_getitem]. rewrite Hp. cbn [bindR].
      destruct properties as [| | | |s|l|p]; cbn in *; try discriminate.
      * destruct (substr_in "parameter" s); [now split|discriminate].
      * destruct (existsb _ l); [now split|discriminate].
      * unfold dict_mem in *.
        destruct (dict_get "parameter" p) as [parameters|]; [|discriminate].
        split; [reflexivity|]. now exists parameters.
  - intros (d & properties & -> & Hp & Hc & _). unfold invalid_structure.
    cbn. unfold dict_mem. rewrite Hp. cbn. now rewrite Hc.
Qed.

(* ------------------------------------------------------------------ *)
(** ** The shape of the rows *)

Lemma mapR_Forall2 {A B} (f : A -> result B) (l : list A) (out : list B) :
  mapR f l = Ok out -> Forall2 (fun x y => f x = Ok y) l out.
Proof.
  revert out. induction l as [|x xs IH]; intros out H; cbn in H.
  - injection H as <-. constructor.
  - destruct (f x) as [y|e] eqn:Hx; cbn in H; [|discriminate].
    destruct (mapR f xs) as [ys|e] eqn:Hxs; cbn in H; [|discriminate].
    injection H as <-. constructor; auto.
Qed.

Lemma Forall2_Forall_r {A B} (R : A -> B -> Prop) (P : B -> Prop)
    (l : list A) (out : list B) :
  (forall x y, R x y -> P y) -> Forall2 R l out -> Forall P out.
Proof. intros HR H. induction H; constructor; eauto. Qed.

Lemma weather_cell_no_sentinel (parameters : pyval) (d nasa : string) (v : pyval) :
  weather_cell parameters d nasa = Ok v -> is_sentinel v = false.
Proof.
  unfold weather_cell.
  destruct (py_contains nasa parameters) as [[|]|e]; cbn [bindR]; try discriminate.
  - destruct (parameters.[nasa]) as [series|e]; cbn [bindR]; [|discriminate].
    destruct (py_get series d PNone) as [value|e]; cbn [bindR]; [|discriminate].
    destruct (is_sentinel value) eqn:E; intros [= <-]; [reflexivity|exact E].
  - intros [= <-]. reflexivity.
Qed.

Lemma cells_of_mapping (cell : string -> result pyval)
    (mapping : list (string * string)) (cells : list (string * pyval)) :
  mapR (fun pc => let* value := cell (fst pc) in Ok (snd pc, value)) mapping
  = Ok cells ->
  map fst cells = map snd mapping
  /\ Forall (fun c => exists nasa, cell nasa = Ok (snd c)) cells.
Proof.
  revert cells. induction mapping as [|pc mapping IH]; intros cells H; cbn in H.
  - injection H as <-. split; constructor.
  - destruct (cell (fst pc)) as [v|] eqn:Hv; cbn in H; [|discriminate].
    destruct (mapR _ mapping) as [rest|]; cbn in H; [|discriminate].
    injection H as <-. destruct (IH rest eq_refl) as [Hcols Hcells].
    split; cbn; [now rewrite Hcols|].
    constructor; [now exists (fst pc)|exact Hcells].
Qed.

Lemma row_of_date_inv (site : string) (site_info parameters : pyval)
    (d : string) (r : row string) :
  row_of_date site site_info parameters d = Ok r ->
  of_site site site_info r /\ date r = d /\ date_parts d r
  /\ map fst (weather r) = weather_columns /\ no_sentinel r.
Proof.
  unfold row_of_date, of_site, date_parts, no_sentinel.
  destruct (site_info.["POINTS"]) as [pts|]; cbn [bindR]; [|discriminate].
  destruct (site_info.["lat"]) as [lat|]; cbn [bindR]; [|discriminate].
  destruct (site_info.["long"]) as [long|]; cbn [bindR]; [|discriminate].
  destruct (py_int (slice 0 4 d)) as [y|]; cbn [bindR]; [|discriminate].
  destruct (py_int (slice 4 6 d)) as [m|]; cbn [bindR]; [|discriminate].
  destruct (py_int (slice 6 8 d)) as [dd|]; cbn [bindR]; [|discriminate].
  destruct (mapR _ param_mapping) as [cells|] eqn:Hcells; cbn [bindR]; [|discriminate].
  intros [= <-].
  cbn [site_code points latitude longitude date year month day weather].
  apply cells_of_mapping in Hcells as [Hcols Hvalues]. repeat split.
  - exact Hcols.
  - eapply Forall_impl; [|exact Hvalues]. intros c [nasa Hc].
    eapply weather_cell_no_sentinel, Hc.
Qed.

Lemma rows_of_response_dates (site : string) (site_info raw_data : pyval)
    (rows : list (row string)) :
  rows_of_response site site_info raw_data = Ok rows ->
  exists parameters dates,
    response_parameters raw_data = Ok parameters
    /\ Forall2 (fun d r => row_of_date site site_info parameters d = Ok r) dates rows.
Proof.
  unfold rows_of_response, rows_of_parameters.
  destruct (response_parameters raw_data) as [parameters|]; cbn [bindR];
    [|discriminate].
  destruct (py_keys parameters) as [keys|]; cbn [bindR]; [|discriminate].
  destruct (seq_index keys 0) as [first_param|]; cbn [bindR]; [|discriminate].
  destruct (parameters.[first_param]) as [first_series|]; cbn [bindR];
    [|discriminate].
  destruct (py_keys first_series) as [dates|]; cbn [bindR]; [|discriminate].
  intros H. exists parameters, dates. split; [reflexivity|].
  now apply mapR_Forall2.
Qed.

(** X4: whenever normalization of a response returns, each of its rows has the
    site code and the POINTS, lat and long of the site entry, year, month
    and day read by [int] off the three slices of its date key, exactly the
    ten weather columns in the order of [param_mapping], and -999 in none
    of them. *)
Theorem rows_shape (site : string) (site_info raw_data : pyval)
    (rows : list (row string)) :
  rows_of_response site site_info raw_data = Ok rows ->
  Forall (fun r => of_site site site_info r
                   /\ date_parts (date r) r
                   /\ map fst (weather r) = weather_columns
                   /\ no_sentinel r) rows.
Proof.
  intros H. apply rows_of_response_dates in H as (parameters & dates & _ & Hrows).
  eapply Forall2_Forall_r; [|exact Hrows].
  intros d r Hr. apply row_of_date_inv in Hr as (Hs & Hd & Hp & Hc & Hn).
  rewrite Hd. auto.
Qed.

Lemma rows_shape_witness :
  Forall (fun r => of_site "A" scenario_site_info r
                   /\ date_parts (date r) r
                   /\ map fst (weather r) = weather_columns
                   /\ no_sentinel r)
         [ mkRow "A" (PStr "P1") (PInt 40) (PInt (-105)) "20200101" 2020 1 1
             (all_null_but (PFloat f15_2));
           mkRow "A" (PStr "P1") (PInt 40) (PInt (-105)) "20200102" 2020 1 2
             (all_null_but PNone) ].
Proof.
  apply (rows_shape "A" scenario_site_info scenario_response). reflexivity.
Defined.

(* ------------------------------------------------------------------ *)
(** ** The dataset of a site *)

Lemma run_emit_bind {A} (api : API) (ev : event) (f : unit -> prog A) :
  run api (bind (emit ev) f) = (ev :: trace_of api (f tt), result_of api (f tt)).
Proof.
  unfold trace_of, result_of. cbn. now destruct (run api (f tt)).
Qed.

Lemma trace_of_emit_bind {A} (api : API) (ev : event) (f : unit -> prog A) :
  trace_of api (bind (emit ev) f) = ev :: trace_of api (f tt).
Proof. unfold trace_of at 1. now rewrite run_emit_bind. Qed.

Lemma result_of_emit_bind {A} (api : API) (ev : event) (f : unit -> prog A) :
  result_of api (bind (emit ev) f) = result_of api (f tt).
Proof. unfold result_of at 1. now rewrite run_emit_bind. Qed.

Lemma Forall_permuted {A} (P : A -> Prop) (l l' : list A) :
  Permutation l l' -> Forall P l -> Forall P l'.
Proof.
  intros Hperm Hl. apply Forall_forall. intros x Hx.
  apply (Permutation_in _ (Permutation_sym Hperm)) in Hx.
  revert x Hx. now apply Forall_forall.
Qed.

Section Dataset.

Context {builtins : Builtins} {pandas : Pandas}.
Variables (config : pyval) (api : API).

Lemma years_loop_Forall (P : row string -> Prop) (site : string) (site_info : pyval) :
  (forall raw rows, rows_of_response site site_info raw = Ok rows -> Forall P rows) ->
  forall years all_data out,
    result_of api (years_loop config site site_info years all_data) = Ok out ->
    Forall P all_data -> Forall P out.
Proof.
  intros Hrows. induction years as [|y ys IH]; intros all_data out Hrun Hacc;
    cbn [years_loop] in Hrun.
  - injection Hrun as <-. exact Hacc.
  - rewrite result_of_emit_bind in Hrun.
    apply result_of_bind_ok in Hrun as (raw_data & _ & Hrun).
    destruct raw_data as [raw|].
    + apply result_of_bind_ok in Hrun as (rows & Hnorm & Hrun).
      rewrite result_of_lift in Hnorm.
      apply (IH _ _ Hrun). apply Forall_app. split; [exact Hacc|].
      now apply (Hrows raw).
    + unfold log in Hrun. rewrite result_of_emit_bind in Hrun. now apply (IH _ _ Hrun).
Qed.

Lemma fetch_data_ok_built (site : string) (site_info year : pyval)
    (outcome : option pyval) :
  config.[site] = Ok site_info ->
  result_of api (_fetch_data config site year) = Ok outcome ->
  exists url, _build_api_url config site_info year = Ok url
              /\ outcome = fetch_outcome (api url)
              /\ requests_made (trace_of api (_fetch_data config site year)) = [url].
Proof.
  intros Hsite Hrun.
  destruct (_build_api_url config site_info year) as [url|e] eqn:Hurl.
  - destruct (run_fetch_data_built config api site site_info year url Hsite Hurl)
      as (lat & long & final & Hfetch & Hfinal).
    exists url. unfold result_of, trace_of in *. rewrite Hfetch in *. cbn in *.
    injection Hrun as <-. repeat split. now destruct final.
  - unfold result_of in Hrun.
    rewrite (run_fetch_data_unbuilt config api site year e) in Hrun;
      [discriminate|].
    rewrite Hsite. exact Hurl.
Qed.

Lemma years_loop_requests (site : string) (site_info : pyval) :
  config.[site] = Ok site_info ->
  forall years all_data out,
    result_of api (years_loop config site site_info years all_data) = Ok out ->
    exists urls,
      Forall2 (fun y url => _build_api_url config site_info y = Ok url) years urls
      /\ requests_made (trace_of api (years_loop config site site_info years all_data))
         = urls.
Proof.
  intros Hsite. induction years as [|y ys IH]; intros all_data out Hrun;
    cbn [years_loop] in *.
  - exists []. split; [constructor|reflexivity].
  - rewrite result_of_emit_bind in Hrun. rewrite trace_of_emit_bind.
    cbn [requests_made]. rewrite trace_of_bind, requests_made_app.
    apply result_of_bind_ok in Hrun as (raw_data & Hfetch & Hrun).
    rewrite Hfetch.
    destruct (fetch_data_ok_built site site_info y raw_data Hsite Hfetch)
      as (url & Hurl & _ & Hreq).
    rewrite Hreq. destruct raw_data as [raw|].
    + rewrite trace_of_bind, requests_made_app.
      apply result_of_bind_ok in Hrun as (rows & Hnorm & Hrun).
      rewrite Hnorm. rewrite result_of_lift in Hnorm.
      destruct (IH _ _ Hrun) as (urls & Hurls & Hrest).
      exists (url :: urls). split; [now constructor|].
      rewrite Hrest. unfold trace_of at 1. rewrite run_lift. reflexivity.
    + unfold log in *. rewrite result_of_emit_bind in Hrun.
      rewrite trace_of_emit_bind. cbn [requests_made].
      destruct (IH _ _ Hrun) as (urls & Hurls & Hrest).
      exists (url :: urls). split; [now constructor|]. now rewrite Hrest.
Qed.

(** What a returned dataset gives on how [_process_site_data] ran. *)
Lemma process_site_data_inv (site_code : pyval) (df : DataFrame) :
  result_of api (_process_site_data config site_code) = Ok df ->
  exists site site_info years all_data,
    site_code = PStr site
    /\ config.[site] = Ok site_info
    /\ (let* ys := config.["years"] in py_iter ys) = Ok years
    /\ result_of api (years_loop config site site_info years []) = Ok all_data
    /\ trace_of api (_process_site_data config site_code)
       = trace_of api (years_loop config site site_info years [])
         ++ [ELog (if List.length all_data =? 0 then WARNING else INFO)%nat
               (if List.length all_data =? 0 then NoDataCollected site
                else Processed (List.length df) site)%nat]
    /\ match all_data with
       | [] => df = []
       | _ :: _ => exists df0, convert_dates all_data = Ok df0
                               /\ df = sort_by_date df0
       end.
Proof.
  unfold _process_site_data. intros Hrun.
  destruct (py_getitem config site_code) as [site_info|] eqn:Hentry;
    [|discriminate].
  destruct (let* ys := config.["years"] in py_iter ys) as [years|] eqn:Hyears;
    [|discriminate].
  destruct site_code as [| | | |site| |]; try discriminate.
  cbn [lift bind site_name] in *.
  apply result_of_bind_ok in Hrun as (all_data & Hloop & Hrun).
  exists site, site_info, years, all_data.
  rewrite trace_of_bind, Hloop.
  repeat (split; [reflexivity || exact Hentry || exact Hloop|]).
  destruct all_data as [|r all_data].
  - unfold log in *. rewrite result_of_emit_bind in Hrun. injection Hrun as <-.
    split; reflexivity.
  - destruct (convert_dates (r :: all_data)) as [df0|] eqn:Hconv; [|discriminate].
    cbn [lift bind] in *. unfold log in *.
    rewrite result_of_emit_bind in Hrun. injection Hrun as <-.
    split; [reflexivity|]. now exists df0.
Qed.

(** X5: every row of a dataset that [_process_site_data] returns has the site
    code and the POINTS, lat and long of the site's configuration entry,
    exactly the ten weather columns, -999 in none of them, and a date that
    [pd.to_datetime] made of the date key its year, month and day were
    sliced from.  The cells are those of the row dictionaries the frame is
    built from. *)
Theorem dataset_rows (site_code : pyval) (df : DataFrame) :
  result_of api (_process_site_data config site_code) = Ok df ->
  exists site site_info,
    site_code = PStr site
    /\ config.[site] = Ok site_info
    /\ Forall (fun r => of_site site site_info r
                        /\ (exists d, to_datetime d = Some (date r) /\ date_parts d r)
                        /\ map fst (weather r) = weather_columns
                        /\ no_sentinel r) df.
Proof.
  intros Hrun.
  apply process_site_data_inv in Hrun
    as (site & site_info & years & all_data & -> & Hentry & _ & Hloop & _ & Hdf).
  exists site, site_info. split; [reflexivity|]. split; [exact Hentry|].
  destruct all_data as [|r0 all_data]; [subst df; constructor|].
  destruct Hdf as (df0 & Hconv & ->).
  apply (Forall_permuted _ df0); [apply sort_by_date_perm|].
  assert (Hall : Forall (fun r => of_site site site_info r
                                  /\ date_parts (date r) r
                                  /\ map fst (weather r) = weather_columns
                                  /\ no_sentinel r) (r0 :: all_data)).
  { apply (years_loop_Forall _ site site_info) with (years := years) (all_data := []);
      [|exact Hloop|constructor].
    intros raw rows Hrows.
    apply rows_of_response_dates in Hrows as (parameters & dates & _ & Hrows).
    eapply Forall2_Forall_r; [|exact Hrows].
    intros d r Hr. apply row_of_date_inv in Hr as (Hs & Hd & Hp & Hc & Hn).
    rewrite Hd. auto. }
  unfold convert_dates in Hconv. apply mapR_Forall2 in Hconv.
  clear Hloop. induction Hconv as [|r r' rs rs' Hr _ IH]; [constructor|].
  inversion Hall as [|? ? (Hs & Hp & Hc & Hn) Hrest]; subst.
  constructor; [|now apply IH].
  destruct (to_datetime (date r)) as [t|] eqn:Ht; [|discriminate].
  injection Hr as <-. repeat split; try apply Hs; auto.
  exists (date r). split; [exact Ht|exact Hp].
Qed.

(** X6: a run of [_process_site_data] that returns has made one request for
    each configured year, in the configured order, each to the URL of the
    site and that year, and none besides: a failed request is not
    repeated. *)
Theorem one_request_per_year (site_code : pyval) (df : DataFrame) :
  result_of api (_process_site_data config site_code) = Ok df ->
  exists site site_info years urls,
    site_code = PStr site
    /\ config.[site] = Ok site_info
    /\ (let* ys := config.["years"] in py_iter ys) = Ok years
    /\ Forall2 (fun y url => _build_api_url config site_info y = Ok url) years urls
    /\ requests_made (trace_of api (_process_site_data config site_code)) = urls.
Proof.
  intros Hrun.
  apply process_site_data_inv in Hrun
    as (site & site_info & years & all_data & -> & Hentry & Hyears & Hloop & Htrace & _).
  destruct (years_loop_requests site site_info Hentry years [] all_data Hloop)
    as (urls & Hurls & Hreq).
  exists site, site_info, years, urls. repeat split; auto.
  rewrite Htrace, requests_made_app, Hreq. cbn. apply app_nil_r.
Qed.

End Dataset.

(* ------------------------------------------------------------------ *)
(** ** Pacing of the requests *)

Lemma offline_lift {A} (r : result A) : offline (lift r).
Proof. destruct r; constructor. Qed.

Lemma offline_log {lvl msg} : offline (log lvl msg).
Proof. repeat constructor. Qed.

Lemma offline_write {path df} : offline (emit (EWriteCsv path df)).
Proof. repeat constructor. Qed.

Lemma offline_makedirs (path : pyval) : offline (makedirs path).
Proof.
  destruct path as [| | | |s| |]; cbn; try constructor.
  destruct (String.eqb s ""); repeat constructor.
Qed.

Lemma offline_bind {A B} (p : prog A) (f : A -> prog B) :
  offline p -> (forall a, offline (f a)) -> offline (bind p f).
Proof. intros Hp Hf. induction Hp; cbn; auto; constructor; auto. Qed.

Lemma offline_requests {A} (api : API) (p : prog A) :
  offline p -> requests_made (trace_of api p) = [].
Proof.
  unfold trace_of. intros Hp. induction Hp as [a|e|ev k Hev Hk IH]; cbn; auto.
  destruct (run api k) as [t r]. cbn in *. now destruct ev.
Qed.

Lemma pacing_armed {A} (b : bool) (p : prog A) : pacing b p -> pacing true p.
Proof. induction 1; constructor; auto. Qed.

Lemma pacing_any {A} (b : bool) (p : prog A) : pacing false p -> pacing b p.
Proof. destruct b; [apply pacing_armed|auto]. Qed.

Lemma offline_pacing {A} (b : bool) (p : prog A) : offline p -> pacing b p.
Proof. induction 1; constructor; auto. Qed.

Lemma pacing_bind {A B} (b : bool) (p : prog A) (f : A -> prog B) :
  pacing b p -> (forall a, pacing false (f a)) -> pacing b (bind p f).
Proof.
  intros Hp Hf. induction Hp; cbn; try (constructor; auto).
  apply pacing_any, Hf.
Qed.

Lemma pacing_bind_offline {A B} (b : bool) (p : prog A) (f : A -> prog B) :
  offline p -> (forall a, pacing b (f a)) -> pacing b (bind p f).
Proof. intros Hp Hf. induction Hp; cbn; auto; constructor; auto. Qed.

Lemma pacing_paced {A} (api : API) (b : bool) (p : prog A) :
  pacing b p -> paced b (trace_of api p) = true.
Proof.
  unfold trace_of. intros Hp.
  induction Hp as [b a|b e|b k Hk IH|b ev k Hev Hk IH|url k Hk IH]; cbn; auto.
  - destruct (run api k) as [t r]. cbn in *. now rewrite orb_true_r.
  - destruct (run api k) as [t r]. cbn in *. now destruct ev.
  - specialize (IH (api url)). destruct (run api (k (api url))) as [t r].
    cbn in *. exact IH.
Qed.

Lemma paced_app_logs (t : list event) (l : list (level * logmsg)) :
  forall b, paced b t = true ->
            paced b (t ++ map (fun lm => ELog (fst lm) (snd lm)) l) = true.
Proof.
  induction t as [|ev t IH]; intros b H; cbn in *.
  - induction l; cbn; auto.
  - destruct ev; auto.
    apply andb_true_iff in H as [H1 H2]. rewrite H1. cbn. auto.
Qed.

Ltac offline_leaf :=
  first [ apply offline_lift | apply offline_log | apply offline_write
        | apply offline_makedirs | apply offline_ret | apply offline_throw ].

Ltac offline_binds :=
  repeat (apply offline_bind; [offline_leaf|intros ?]); try offline_leaf.

Ltac pacing_prefix :=
  repeat (apply pacing_bind_offline; [offline_leaf|intros ?]).

Section Pacing.

Context {builtins : Builtins} {pandas : Pandas}.
Variable config : pyval.

Lemma pacing_fetch_data (site : string) (year : pyval) :
  pacing true (_fetch_data config site year).
Proof.
  unfold _fetch_data. pacing_prefix. apply pacing_get. intros response.
  apply offline_pacing.
  destruct response as [| | |data]; try offline_binds.
  destruct (invalid_structure data) as [[|]|e]; offline_binds.
Qed.

Lemma pacing_years_loop (site : string) (site_info : pyval) (years : list pyval) :
  forall all_data, pacing false (years_loop config site site_info years all_data).
Proof.
  induction years as [|y ys IH]; intros all_data; cbn [years_loop];
    [constructor|].
  cbn [emit bind]. apply pacing_sleep.
  apply pacing_bind; [apply pacing_fetch_data|intros [raw|]].
  - apply pacing_bind_offline; [offline_leaf|intros rows; apply IH].
  - apply pacing_bind_offline; [offline_leaf|intros _; apply IH].
Qed.

Lemma pacing_process_site_data (site_code : pyval) :
  pacing false (_process_site_data config site_code).
Proof.
  unfold _process_site_data. pacing_prefix.
  apply pacing_bind; [apply pacing_years_loop|intros [|r all_data]];
    apply offline_pacing; offline_binds.
Qed.

Lemma pacing_fetch_sites (sites : list pyval) : pacing false (fetch_sites config sites).
Proof.
  induction sites as [|s rest IH]; cbn [fetch_sites]; [constructor|].
  pacing_prefix.
  apply pacing_bind; [apply pacing_process_site_data|intros [|r df]];
    pacing_prefix; exact IH.
Qed.

Lemma pacing_collect_sites (sites : list pyval) :
  forall all_sites_data, pacing false (collect_sites config sites all_sites_data).
Proof.
  induction sites as [|s rest IH]; intros acc; cbn [collect_sites]; [constructor|].
  apply pacing_bind; [apply pacing_process_site_data|intros [|r df]]; apply IH.
Qed.

Lemma offline_summary_sites (sites : list pyval) : offline (summary_sites config sites).
Proof.
  induction sites as [|s rest IH]; cbn [summary_sites]; [constructor|].
  repeat (apply offline_bind; [offline_leaf|intros ?]). exact IH.
Qed.

Lemma offline_print_config_summary : offline (print_config_summary config).
Proof.
  unfold print_config_summary.
  repeat (apply offline_bind; [offline_leaf|intros ?]).
  apply offline_summary_sites.
Qed.

Lemma offline_init : offline (init config).
Proof. unfold init. offline_binds. Qed.

Lemma pacing_pipeline : pacing false (pipeline config).
Proof.
  unfold pipeline.
  apply pacing_bind_offline; [apply offline_init|intros _].
  apply pacing_bind_offline; [apply offline_print_config_summary|intros _].
  apply pacing_bind.
  { unfold fetch_all_data. pacing_prefix.
    apply pacing_bind; [apply pacing_fetch_sites|intros _].
    apply offline_pacing. offline_leaf. }
  intros _. apply pacing_bind.
  { unfold create_combined_file. pacing_prefix.
    apply pacing_bind; [apply pacing_collect_sites|intros [|d all]];
      apply offline_pacing; offline_binds. }
  intros _. apply offline_pacing. offline_leaf.
Qed.

End Pacing.

(** X7: in every run, whatever the configuration and the API, each request has
    a timeout of 30 and comes after a sleep of one second of its own: no two
    requests follow each other without a sleep between them, also after a
    failed request. *)
Theorem requests_paced `{Builtins} `{Pandas} (api : API) (loaded : option pyval) :
  paced false (fst (main api loaded)) = true.
Proof.
  destruct loaded as [config|]; [|reflexivity].
  pose proof (pacing_paced api false _ (pacing_pipeline config)) as Hpaced.
  unfold main, trace_of in *.
  destruct (run api (pipeline config)) as [t [u|e]]; cbn [fst] in *; [exact Hpaced|].
  apply (paced_app_logs t [(ERROR, UnexpectedError e); (ERROR, Traceback)]), Hpaced.
Qed.

(* ------------------------------------------------------------------ *)
(** ** The files of a run *)

Lemma files_written_bind {A B} (api : API) (p : prog A) (f : A -> prog B) :
  files_written (trace_of api (bind p f))
  = files_written (trace_of api p)
    ++ match result_of api p with
       | Ok a => files_written (trace_of api (f a))
       | Raise _ => []
       end.
Proof.
  rewrite trace_of_bind, files_written_app. now destruct (result_of api p).
Qed.

Lemma requests_made_bind {A B} (api : API) (p : prog A) (f : A -> prog B) :
  requests_made (trace_of api (bind p f))
  = requests_made (trace_of api p)
    ++ match result_of api p with
       | Ok a => requests_made (trace_of api (f a))
       | Raise _ => []
       end.
Proof.
  rewrite trace_of_bind, requests_made_app. now destruct (result_of api p).
Qed.

Lemma quiet_makedirs (path : pyval) : quiet (makedirs path).
Proof.
  destruct path as [| | | |s| |]; cbn; try constructor.
  destruct (String.eqb s ""); repeat constructor.
Qed.

Lemma output_file_any_name `{Builtins} (config : pyval) (name name' path : string) :
  output_file config name = Ok path ->
  exists path', output_file config name' = Ok path'.
Proof.
  unfold output_file.
  destruct (py_get config "output_directory" (PStr "nasa_power_data")) as [dir|];
    cbn [bindR]; [|discriminate].
  destruct (config.["years"]) as [years|]; cbn [bindR]; [|discriminate].
  destruct (py_iter years) as [ys|]; cbn [bindR]; [|discriminate].
  destruct (py_min ys) as [lo|]; cbn [bindR]; [|discriminate].
  destruct (py_max ys) as [hi|]; cbn [bindR]; [|discriminate].
  unfold os_path_join. destruct dir; try discriminate. intros _.
  destruct (prefix "/" _); [now eexists|].
  destruct (_ || _); now eexists.
Qed.

Section Files.

Context {builtins : Builtins} {pandas : Pandas}.
Variables (config : pyval) (api : API).

Lemma quiet_summary_sites (sites : list pyval) : quiet (summary_sites config sites).
Proof.
  induction sites as [|s rest IH]; cbn [summary_sites]; [constructor|].
  repeat (apply quiet_bind; [quiet_leaf|intros ?]). exact IH.
Qed.

Lemma quiet_print_config_summary : quiet (print_config_summary config).
Proof.
  unfold print_config_summary.
  repeat (apply quiet_bind; [quiet_leaf|intros ?]). apply quiet_summary_sites.
Qed.

Lemma quiet_init : quiet (init config).
Proof.
  unfold init. repeat (apply quiet_bind; [quiet_leaf|intros ?]).
  apply quiet_makedirs.
Qed.

(** The files [fetch_sites] writes: the dataset of a site of the list, not
    empty, at the path of that site. *)
Lemma fetch_sites_files (sites : list pyval) (path : string) (df : DataFrame) :
  In (path, df) (files_written (trace_of api (fetch_sites config sites))) ->
  exists site,
    In (PStr site) sites
    /\ result_of api (_process_site_data config (PStr site)) = Ok df
    /\ df <> []
    /\ output_file config site = Ok path.
Proof.
  induction sites as [|s rest IH]; cbn [fetch_sites]; [intros []|].
  unfold log. rewrite trace_of_emit_bind. cbn [files_written].
  rewrite files_written_bind, (quiet_files _ _ (quiet_process_site_data config s)).
  cbn [app].
  destruct (result_of api (_process_site_data config s)) as [[|r site_df]|e] eqn:Hp;
    [| |intros []].
  - rewrite trace_of_emit_bind. cbn [files_written]. intros Hin.
    destruct (IH Hin) as (site & Hsite & Hrest). exists site. split; [now right|auto].
  - apply process_site_data_inv in Hp as Hinv.
    destruct Hinv as (site & _ & _ & _ & -> & _). cbn [py_str].
    destruct (output_file config site) as [filepath|e] eqn:Hfile; cbn [lift bind];
      [|intros []].
    rewrite trace_of_emit_bind. cbn [files_written]. rewrite trace_of_emit_bind.
    cbn [files_written]. intros [[= <- <-]|Hin].
    + exists site. split; [now left|]. repeat split; auto. discriminate.
    + destruct (IH Hin) as (site' & Hsite & Hrest). exists site'.
      split; [now right|auto].
Qed.

Lemma fetch_sites_count (sites : list pyval) :
  (List.length (files_written (trace_of api (fetch_sites config sites)))
   <= List.length sites)%nat.
Proof.
  induction sites as [|s rest IH]; cbn [fetch_sites]; [cbn; lia|].
  unfold log. rewrite trace_of_emit_bind. cbn [files_written].
  rewrite files_written_bind, (quiet_files _ _ (quiet_process_site_data config s)).
  cbn [app List.length].
  destruct (result_of api (_process_site_data config s)) as [[|r site_df]|e];
    [| |cbn; lia].
  - rewrite trace_of_emit_bind. cbn [files_written]. lia.
  - destruct (output_file config (py_str s)) as [filepath|e]; cbn [lift bind];
      [|cbn; lia].
    rewrite trace_of_emit_bind. cbn [files_written]. rewrite trace_of_emit_bind.
    cbn [files_written List.length]. lia.
Qed.

Lemma fetch_all_data_files :
  files_written (trace_of api (fetch_all_data config))
  = match (let* s := config.["sites"] in py_iter s) with
    | Ok sites => files_written (trace_of api (fetch_sites config sites))
    | Raise _ => []
    end.
Proof.
  unfold fetch_all_data, log. rewrite trace_of_emit_bind. cbn [files_written].
  destruct (let* s := config.["sites"] in py_iter s) as [sites|e];
    cbn [lift bind]; [|reflexivity].
  rewrite files_written_bind.
  destruct (result_of api (fetch_sites config sites)); cbn; now rewrite app_nil_r.
Qed.

(** X8: every file [fetch_all_data] writes is the dataset of a configured site:
    what [_process_site_data] returns for it, never empty, sorted by date,
    at the path [os.path.join(output_dir,
    f"{site}_daily_weather_{min}-{max}.csv")]; and there is at most one
    file for each item of the configured sites. *)
Theorem site_files (path : string) (df : DataFrame) :
  In (path, df) (files_written (trace_of api (fetch_all_data config))) ->
  exists sites site,
    (let* s := config.["sites"] in py_iter s) = Ok sites
    /\ In (PStr site) sites
    /\ result_of api (_process_site_data config (PStr site)) = Ok df
    /\ df <> []
    /\ Sorted date_le df
    /\ output_file config site = Ok path
    /\ (List.length (files_written (trace_of api (fetch_all_data config)))
        <= List.length sites)%nat.
Proof.
  rewrite fetch_all_data_files.
  destruct (let* s := config.["sites"] in py_iter s) as [sites|e]; [|intros []].
  intros Hin. destruct (fetch_sites_files sites path df Hin)
    as (site & Hsite & Hp & Hne & Hfile).
  exists sites, site. repeat split; auto.
  - eapply process_site_data_sorted, Hp.
  - apply fetch_sites_count.
Qed.

End Files.

(* ------------------------------------------------------------------ *)
(** ** The combined file and the second pass *)

Section SecondPass.

Context {builtins : Builtins} {pandas : Pandas}.
Variables (config : pyval) (api : API).

(** After a [fetch_sites] that returned, [collect_sites] gathers the
    datasets of the files it wrote, in their order, and makes the same
    requests. *)
Lemma collect_after_fetch (sites : list pyval) :
  result_of api (fetch_sites config sites) = Ok tt ->
  forall acc,
    result_of api (collect_sites config sites acc)
    = Ok (acc ++ map snd (files_written (trace_of api (fetch_sites config sites))))
    /\ requests_made (trace_of api (collect_sites config sites acc))
       = requests_made (trace_of api (fetch_sites config sites)).
Proof.
  induction sites as [|s rest IH]; intros Hrun acc; cbn [fetch_sites collect_sites] in *.
  - cbn. now rewrite app_nil_r.
  - unfold log in *. rewrite result_of_emit_bind in Hrun.
    rewrite trace_of_emit_bind. cbn [files_written requests_made].
    rewrite files_written_bind, (quiet_files _ _ (quiet_process_site_data config s)).
    rewrite !requests_made_bind, result_of_bind. cbn [app].
    rewrite result_of_bind in Hrun.
    destruct (result_of api (_process_site_data config s)) as [[|r site_df]|e];
      [| |discriminate].
    + rewrite result_of_emit_bind in Hrun. rewrite trace_of_emit_bind.
      cbn [files_written requests_made].
      destruct (IH Hrun acc) as [Hres Hreq]. now rewrite Hres, Hreq.
    + destruct (output_file config (py_str s)) as [filepath|e]; cbn [lift bind] in *;
        [|discriminate].
      rewrite !result_of_emit_bind in Hrun. rewrite !trace_of_emit_bind.
      cbn [files_written requests_made map snd]. cbn beta iota.
      destruct (IH Hrun (acc ++ [r :: site_df])) as [Hres Hreq]. split.
      * etransitivity; [exact Hres|]. now rewrite <- app_assoc.
      * f_equal. exact Hreq.
Qed.

Lemma fetch_all_data_inv :
  result_of api (fetch_all_data config) = Ok tt ->
  exists sites,
    (let* s := config.["sites"] in py_iter s) = Ok sites
    /\ result_of api (fetch_sites config sites) = Ok tt
    /\ files_written (trace_of api (fetch_all_data config))
       = files_written (trace_of api (fetch_sites config sites))
    /\ requests_made (trace_of api (fetch_all_data config))
       = requests_made (trace_of api (fetch_sites config sites)).
Proof.
  intros Hrun. rewrite fetch_all_data_files. unfold fetch_all_data, log in *.
  rewrite result_of_emit_bind in Hrun. rewrite trace_of_emit_bind.
  cbn [requests_made].
  destruct (let* s := config.["sites"] in py_iter s) as [sites|e];
    cbn [lift bind] in *; [|discriminate].
  exists sites. rewrite result_of_bind in Hrun. rewrite requests_made_bind.
  destruct (result_of api (fetch_sites config sites)) as [[]|e]; [|discriminate].
  cbn. now rewrite app_nil_r.
Qed.

(** The second pass after a first pass that returned: what
    [create_combined_file] returns, writes and requests. *)
Lemma create_combined_file_after :
  result_of api (fetch_all_data config) = Ok tt ->
  result_of api (create_combined_file config) = Ok tt
  /\ requests_made (trace_of api (create_combined_file config))
     = requests_made (trace_of api (fetch_all_data config))
  /\ match files_written (trace_of api (fetch_all_data config)) with
     | [] => files_written (trace_of api (create_combined_file config)) = []
     | file :: files =>
         exists path,
           output_file config "all_sites" = Ok path
           /\ files_written (trace_of api (create_combined_file config))
              = [(path, sort_by_site_date
                          (List.concat (map snd (file :: files))))]
     end.
Proof.
  intros Hrun.
  destruct (fetch_all_data_inv Hrun) as (sites & Hsites & Hfetch & Hfiles & Hreq).
  destruct (collect_after_fetch sites Hfetch []) as [Hcollect Hcreq].
  rewrite Hfiles, Hreq. unfold create_combined_file, log.
  rewrite result_of_emit_bind, trace_of_emit_bind. cbn [requests_made files_written].
  rewrite Hsites. cbn [lift bind].
  rewrite result_of_bind, requests_made_bind, files_written_bind, Hcollect, Hcreq.
  rewrite (quiet_files _ _ (quiet_collect_sites config sites [])). cbn [app].
  destruct (files_written (trace_of api (fetch_sites config sites)))
    as [|[path0 df0] files] eqn:Hwritten; cbn [map snd].
  - cbn. now rewrite app_nil_r.
  - assert (Hin : In (path0, df0)
                     (files_written (trace_of api (fetch_sites config sites))))
      by (rewrite Hwritten; now left).
    apply fetch_sites_files in Hin as (site & _ & _ & _ & Hfile).
    destruct (output_file_any_name config site "all_sites" path0 Hfile)
      as [path Hpath].
    rewrite Hpath. cbn [lift bind]. rewrite !result_of_emit_bind, !trace_of_emit_bind.
    cbn. rewrite app_nil_r. split; [reflexivity|]. split; [reflexivity|].
    now exists path.
Qed.

(** X9: after a first pass that returned, the combined file has a row for
    each row of the per-site files and no other: it is written exactly when
    a per-site file was, at the path of the name [all_sites], and the
    (site code, date) pairs of its rows are a rearrangement of those of the
    rows of the per-site files together. *)
Theorem combined_file_rows :
  result_of api (fetch_all_data config) = Ok tt ->
  match files_written (trace_of api (fetch_all_data config)) with
  | [] => files_written (trace_of api (create_combined_file config)) = []
  | file :: files =>
      exists path df,
        files_written (trace_of api (create_combined_file config)) = [(path, df)]
        /\ output_file config "all_sites" = Ok path
        /\ Permutation (map row_key (List.concat (map snd (file :: files))))
                       (map row_key df)
  end.
Proof.
  intros Hrun. destruct (create_combined_file_after Hrun) as (_ & _ & Hfiles).
  destruct (files_written (trace_of api (fetch_all_data config))) as [|file files];
    [exact Hfiles|].
  destruct Hfiles as (path & Hpath & Hwritten).
  eexists path, _. split; [exact Hwritten|]. split; [exact Hpath|].
  apply Permutation_map, sort_by_site_date_perm.
Qed.

Lemma pipeline_inv :
  result_of api (pipeline config) = Ok tt ->
  result_of api (fetch_all_data config) = Ok tt
  /\ requests_made (trace_of api (pipeline config))
     = requests_made (trace_of api (fetch_all_data config))
       ++ requests_made (trace_of api (create_combined_file config)).
Proof.
  unfold pipeline. intros Hrun.
  rewrite requests_made_bind, (offline_requests _ _ (offline_init config)).
  apply result_of_bind_ok in Hrun as ([] & -> & Hrun).
  rewrite requests_made_bind,
    (offline_requests _ _ (offline_print_config_summary config)).
  apply result_of_bind_ok in Hrun as ([] & -> & Hrun).
  rewrite requests_made_bind.
  apply result_of_bind_ok in Hrun as ([] & Hfetch & Hrun). rewrite Hfetch.
  rewrite requests_made_bind.
  apply result_of_bind_ok in Hrun as ([] & -> & Hrun).
  cbn. now rewrite app_nil_r.
Qed.

End SecondPass.

(** X10: a run whose pipeline goes through to the end, without an exception,
    has made every request twice: the requests of [fetch_all_data], then
    the same requests again in [create_combined_file], which keeps nothing
    of the first pass. *)
Theorem requests_made_twice `{Builtins} `{Pandas} (api : API) (config : pyval) :
  result_of api (pipeline config) = Ok tt ->
  requests_made (trace_of api (pipeline config))
  = requests_made (trace_of api (fetch_all_data config))
    ++ requests_made (trace_of api (fetch_all_data config)).
Proof.
  intros Hrun. destruct (pipeline_inv config api Hrun) as [Hfetch ->].
  destruct (create_combined_file_after config api Hfetch) as (_ & -> & _).
  reflexivity.
Qed.

(* ------------------------------------------------------------------ *)
(** ** Runs that fetch nothing *)

Lemma fails_trace {A B} (api : API) (p : prog A) (f : A -> prog B) :
  fails api p -> trace_of api (bind p f) = trace_of api p.
Proof.
  intros [e He]. rewrite trace_of_bind, He. apply app_nil_r.
Qed.

Lemma py_iter_nothing (years : pyval) :
  py_iter years = Ok [] -> is_ok (py_getitem years (PInt 0)) = false.
Proof.
  destruct years as [| | | |s|l|d]; cbn; try discriminate.
  - destruct s; [reflexivity|discriminate].
  - destruct l; [reflexivity|discriminate].
  - reflexivity.
Qed.

Section NoYears.

Context {builtins : Builtins} {pandas : Pandas}.
Variables (config : pyval) (api : API).

Lemma print_config_summary_no_years (years : pyval) :
  config.["years"] = Ok years ->
  py_iter years = Ok [] ->
  fails api (print_config_summary config).
Proof.
  intros Hyears Hiter. unfold print_config_summary.
  do 3 (apply fails_bind_r; intros ?). apply fails_bind_l.
  rewrite Hyears. cbn [bindR]. apply py_iter_nothing in Hiter.
  destruct (py_getitem years (PInt 0)) as [y|e]; [discriminate|]. now exists e.
Qed.

Lemma pipeline_stops_at_summary :
  fails api (print_config_summary config) ->
  fails api (pipeline config)
  /\ requests_made (trace_of api (pipeline config)) = []
  /\ files_written (trace_of api (pipeline config)) = [].
Proof.
  intros Hfails. unfold pipeline. split; [|split].
  - apply fails_bind_r. intros _. now apply fails_bind_l.
  - rewrite requests_made_bind, (offline_requests _ _ (offline_init config)).
    destruct (result_of api (init config)); [|reflexivity].
    rewrite fails_trace by exact Hfails.
    apply offline_requests, offline_print_config_summary.
  - rewrite files_written_bind, (quiet_files _ _ (quiet_init config)).
    destruct (result_of api (init config)); [|reflexivity].
    rewrite fails_trace by exact Hfails.
    apply quiet_files, quiet_print_config_summary.
Qed.

End NoYears.

(** X11: a configuration whose years are empty does not give empty outputs: the
    summary reads the first year, [self.config['years'][0]], which raises,
    and the run ends with exit status 1 before any request and any file. *)
Theorem no_years_aborts `{Builtins} `{Pandas} (api : API) (config years : pyval) :
  config.["years"] = Ok years ->
  py_iter years = Ok [] ->
  exit_status api (Some config) = 1
  /\ requests_made (fst (main api (Some config))) = []
  /\ files_written (fst (main api (Some config))) = [].
Proof.
  intros Hyears Hiter.
  destruct (pipeline_stops_at_summary config api
              (print_config_summary_no_years config api years Hyears Hiter))
    as ([e He] & Hreq & Hfiles).
  unfold exit_status, main, result_of, trace_of in *.
  destruct (run api (pipeline config)) as [t r]. cbn [fst snd] in *. subst r.
  cbn [fst snd]. rewrite requests_made_app, files_written_app, Hreq, Hfiles.
  now repeat split.
Qed.

Lemma no_years_aborts_witness :
  exit_status scenario_api (Some (scenario_config [])) = 1
  /\ requests_made (fst (main scenario_api (Some (scenario_config [])))) = []
  /\ files_written (fst (main scenario_api (Some (scenario_config [])))) = [].
Proof.
  apply (no_years_aborts scenario_api (scenario_config []) (PList []));
    reflexivity.
Defined.

Lemma fetch_failure_outcome (response : http_response) :
  fetch_failure response -> fetch_outcome response = None.
Proof.
  destruct response as [| | |data]; cbn; auto.
  destruct (invalid_structure data) as [[|]|e]; auto. intros Hfail. now elim Hfail.
Qed.

Section AllFail.

Context {builtins : Builtins} {pandas : Pandas}.
Variables (config : pyval) (api : API).
Hypothesis Hfail : forall url, fetch_failure (api url).

Lemma fetch_data_all_fail (site : string) (year : pyval) (outcome : option pyval) :
  result_of api (_fetch_data config site year) = Ok outcome -> outcome = None.
Proof.
  intros Hrun. destruct (config.[site]) as [site_info|e] eqn:Hsite.
  - destruct (fetch_data_ok_built config api site site_info year outcome Hsite Hrun)
      as (url & _ & -> & _).
    apply fetch_failure_outcome, Hfail.
  - unfold result_of in Hrun.
    rewrite (run_fetch_data_unbuilt config api site year e) in Hrun; [discriminate|].
    now rewrite Hsite.
Qed.

Lemma years_loop_keeps (site : string) (site_info : pyval) (years : list pyval) :
  forall all_data out,
    result_of api (years_loop config site site_info years all_data) = Ok out ->
    out = all_data.
Proof.
  induction years as [|y ys IH]; intros all_data out Hrun; cbn [years_loop] in Hrun.
  - now injection Hrun.
  - rewrite result_of_emit_bind in Hrun.
    apply result_of_bind_ok in Hrun as (raw_data & Hfetch & Hrun).
    apply fetch_data_all_fail in Hfetch as ->.
    unfold log in Hrun. rewrite result_of_emit_bind in Hrun. now apply IH.
Qed.

Lemma process_site_data_empty (site_code : pyval) (df : DataFrame) :
  result_of api (_process_site_data config site_code) = Ok df -> df = [].
Proof.
  intros Hrun.
  apply process_site_data_inv in Hrun
    as (site & site_info & years & all_data & _ & _ & _ & Hloop & _ & Hdf).
  apply years_loop_keeps in Hloop as ->. exact Hdf.
Qed.

Lemma fetch_sites_writes_nothing (sites : list pyval) :
  files_written (trace_of api (fetch_sites config sites)) = [].
Proof.
  destruct (files_written (trace_of api (fetch_sites config sites)))
    as [|[path df] files] eqn:Hfiles; [reflexivity|].
  assert (Hin : In (path, df)
                   (files_written (trace_of api (fetch_sites config sites))))
    by (rewrite Hfiles; now left).
  apply fetch_sites_files in Hin as (site & _ & Hp & Hne & _).
  apply process_site_data_empty in Hp. contradiction.
Qed.

Lemma collect_sites_keeps (sites : list pyval) :
  forall acc out,
    result_of api (collect_sites config sites acc) = Ok out -> out = acc.
Proof.
  induction sites as [|s rest IH]; intros acc out Hrun; cbn [collect_sites] in Hrun.
  - now injection Hrun.
  - apply result_of_bind_ok in Hrun as (site_df & Hp & Hrun).
    apply process_site_data_empty in Hp as ->. now apply IH.
Qed.

Lemma create_combined_file_writes_nothing :
  files_written (trace_of api (create_combined_file config)) = [].
Proof.
  unfold create_combined_file, log. rewrite trace_of_emit_bind. cbn [files_written].
  destruct (let* s := config.["sites"] in py_iter s) as [sites|e];
    cbn [lift bind]; [|reflexivity].
  rewrite files_written_bind, (quiet_files _ _ (quiet_collect_sites config sites [])).
  cbn [app].
  destruct (result_of api (collect_sites config sites [])) as [all_sites_data|e] eqn:Hc;
    [|reflexivity].
  apply collect_sites_keeps in Hc as ->. reflexivity.
Qed.

Lemma pipeline_writes_nothing :
  files_written (trace_of api (pipeline config)) = [].
Proof.
  unfold pipeline.
  rewrite files_written_bind, (quiet_files _ _ (quiet_init config)).
  destruct (result_of api (init config)); [|reflexivity].
  rewrite files_written_bind, (quiet_files _ _ (quiet_print_config_summary config)).
  destruct (result_of api (print_config_summary config)); [|reflexivity].
  rewrite files_written_bind, fetch_all_data_files.
  assert (Hfetch : match (let* s := config.["sites"] in py_iter s) with
                   | Ok sites => files_written (trace_of api (fetch_sites config sites))
                   | Raise _ => []
                   end = [])
    by (destruct (let* s := config.["sites"] in py_iter s);
        [apply fetch_sites_writes_nothing|reflexivity]).
  rewrite Hfetch.
  destruct (result_of api (fetch_all_data config)); [|reflexivity].
  rewrite files_written_bind, create_combined_file_writes_nothing.
  now destruct (result_of api (create_combined_file config)).
Qed.

End AllFail.

(** X12: when every request fails (transport error, bad status, a body that is
    not JSON or of invalid structure), the run writes no file at all,
    whatever the configuration: neither a per-site file nor the combined
    one. *)
Theorem no_file_without_data `{Builtins} `{Pandas} (api : API)
    (loaded : option pyval) :
  (forall url, fetch_failure (api url)) ->
  files_written (fst (main api loaded)) = [].
Proof.
  intros Hfail. destruct loaded as [config|]; [|reflexivity].
  pose proof (pipeline_writes_nothing config api Hfail) as Ht.
  unfold main, trace_of in *.
  destruct (run api (pipeline config)) as [t r]. cbn [fst] in Ht.
  destruct r; cbn [fst]; [exact Ht|]. now rewrite files_written_app, Ht.
Qed.

Lemma no_file_without_data_witness :
  files_written
    (fst (main failing_api (Some (scenario_config [PInt 2020; PInt 2021])))) = [].
Proof.
  apply (no_file_without_data failing_api
           (Some (scenario_config [PInt 2020; PInt 2021]))).
  intros url. exact I.
Defined.

(* ------------------------------------------------------------------ *)
(** ** The properties on the scenario *)

Lemma fetch_data_absorbs_witness :
  exists outcome,
    result_of scenario_api (_fetch_data (scenario_config [PInt 2020]) "A" (PInt 2020))
    = Ok outcome
    /\ (forall data, outcome = Some data <->
                     scenario_api scenario_url = Body data
                     /\ invalid_structure data = Ok false)
    /\ requests_made
         (trace_of scenario_api
            (_fetch_data (scenario_config [PInt 2020]) "A" (PInt 2020)))
       = [scenario_url]
    /\ In (EGet scenario_url 30)
          (trace_of scenario_api
             (_fetch_data (scenario_config [PInt 2020]) "A" (PInt 2020))).
Proof.
  apply (fetch_data_absorbs (scenario_config [PInt 2020]) scenario_api
           "A" scenario_site_info (PInt 2020) scenario_url); reflexivity.
Defined.

Lemma fetch_data_raises_witness :
  trace_of scenario_api (_fetch_data (PDict missing_site_config) "B" (PInt 2020)) = []
  /\ (let* site_info := (PDict missing_site_config).["B"] in
      _build_api_url (PDict missing_site_config) site_info (PInt 2020))
     = Raise KeyError.
Proof.
  apply (fetch_data_raises (PDict missing_site_config) scenario_api
           "B" (PInt 2020) KeyError).
  reflexivity.
Defined.

Lemma dataset_rows_witness :
  exists site site_info,
    PStr "A" = PStr site
    /\ (scenario_config [PInt 2020]).[site] = Ok site_info
    /\ Forall (fun r => of_site site site_info r
                        /\ (exists d, to_datetime d = Some (date r) /\ date_parts d r)
                        /\ map fst (weather r) = weather_columns
                        /\ no_sentinel r) scenario_frame.
Proof.
  apply (dataset_rows (scenario_config [PInt 2020]) scenario_api
           (PStr "A") scenario_frame).
  vm_compute. reflexivity.
Defined.

Lemma one_request_per_year_witness :
  exists site site_info years urls,
    PStr "A" = PStr site
    /\ (scenario_config [PInt 2020; PInt 2021]).[site] = Ok site_info
    /\ (let* ys := (scenario_config [PInt 2020; PInt 2021]).["years"] in py_iter ys)
       = Ok years
    /\ Forall2 (fun y url =>
                  _build_api_url (scenario_config [PInt 2020; PInt 2021]) site_info y
                  = Ok url) years urls
    /\ requests_made
         (trace_of failing_api
            (_process_site_data (scenario_config [PInt 2020; PInt 2021]) (PStr "A")))
       = urls.
Proof.
  apply (one_request_per_year (scenario_config [PInt 2020; PInt 2021]) failing_api
           (PStr "A") []).
  reflexivity.
Defined.

Lemma site_files_witness :
  exists sites site,
    (let* s := (scenario_config [PInt 2020]).["sites"] in py_iter s) = Ok sites
    /\ In (PStr site) sites
    /\ result_of scenario_api
         (_process_site_data (scenario_config [PInt 2020]) (PStr site))
       = Ok scenario_frame
    /\ scenario_frame <> []
    /\ Sorted date_le scenario_frame
    /\ output_file (scenario_config [PInt 2020]) site = Ok scenario_site_path
    /\ (List.length
          (files_written
             (trace_of scenario_api (fetch_all_data (scenario_config [PInt 2020]))))
        <= List.length sites)%nat.
Proof.
  apply (site_files (scenario_config [PInt 2020]) scenario_api
           scenario_site_path scenario_frame).
  vm_compute. left. reflexivity.
Defined.

Lemma combined_file_rows_witness :
  match files_written
          (trace_of scenario_api (fetch_all_data (scenario_config [PInt 2020]))) with
  | [] => files_written
            (trace_of scenario_api
               (create_combined_file (scenario_config [PInt 2020]))) = []
  | file :: files =>
      exists path df,
        files_written
          (trace_of scenario_api (create_combined_file (scenario_config [PInt 2020])))
        = [(path, df)]
        /\ output_file (scenario_config [PInt 2020]) "all_sites" = Ok path
        /\ Permutation (map row_key (List.concat (map snd (file :: files))))
                       (map row_key df)
  end.
Proof.
  apply (combined_file_rows (scenario_config [PInt 2020]) scenario_api).
  vm_compute. reflexivity.
Defined.

Lemma requests_made_twice_witness :
  requests_made (trace_of scenario_api (pipeline (scenario_config [PInt 2020])))
  = requests_made
      (trace_of scenario_api (fetch_all_data (scenario_config [PInt 2020])))
    ++ requests_made
         (trace_of scenario_api (fetch_all_data (scenario_config [PInt 2020]))).
Proof.
  apply (requests_made_twice scenario_api (scenario_config [PInt 2020])).
  vm_compute. reflexivity.
Defined.

(* ------------------------------------------------------------------ *)
(** ** Values in the query string *)

Lemma append_assoc (a b c : string) : (a +++ b) +++ c = a +++ b +++ c.
Proof. induction a as [|ch a IH]; cbn; [reflexivity|now rewrite IH]. Qed.

(** X13: the query string takes its values as they are, without escaping: a
    value that holds [&k'=v'] gives the query string of a further key [k']
    with value [v'], and this is what the receiver reads. *)
Theorem query_values_verbatim (k a k' v' : string) (rest : list (string * string)) :
  forallb plain_item ((k, a) :: (k', v') :: rest) = true ->
  query_string ((k, a +++ "&" +++ k' +++ "=" +++ v') :: rest)
  = query_string ((k, a) :: (k', v') :: rest)
  /\ parse_query (query_string ((k, a +++ "&" +++ k' +++ "=" +++ v') :: rest))
     = (k, a) :: (k', v') :: rest.
Proof.
  intros Hplain.
  assert (Hsame : query_string ((k, a +++ "&" +++ k' +++ "=" +++ v') :: rest)
                  = query_string ((k, a) :: (k', v') :: rest)).
  { unfold query_string. cbn [map fst snd]. destruct rest as [|kv rest].
    - cbn [String.concat]. now rewrite !append_assoc.
    - cbn [map]. rewrite !concat_cons2, !append_assoc. reflexivity. }
  split; [exact Hsame|]. rewrite Hsame. now apply parse_query_string.
Qed.

Lemma query_values_verbatim_witness :
  query_string [("community", "AG" +++ "&" +++ "format" +++ "=" +++ "csv");
                ("format", "json")]
  = query_string [("community", "AG"); ("format", "csv"); ("format", "json")]
  /\ parse_query
       (query_string [("community", "AG" +++ "&" +++ "format" +++ "=" +++ "csv");
                      ("format", "json")])
     = [("community", "AG"); ("format", "csv"); ("format", "json")].
Proof.
  apply (query_values_verbatim "community" "AG" "format" "csv" [("format", "json")]).
  reflexivity.
Defined.
